(** * APIstarwars: the Flask handlers of [src/app.py] over the models of
    [src/models.py]

    The four SQLAlchemy models become records, a table is the list of its
    rows in rowid order, and a handler is a computation in a small state
    monad over the database and the request's ORM session.  A JSON response
    is the pair of its body and its HTTP status, as the handlers return it. *)

From Stdlib Require Import List String Bool Arith Lia DecimalString.
Import ListNotations.
Open Scope string_scope.
Open Scope nat_scope.

Set Implicit Arguments.
Set Warnings "-register-all".

(** ** JSON values built by [jsonify] *)

Inductive json : Type :=
| JNull
| JNum (n : nat)
| JStr (s : string)
| JArr (items : list json)
| JObj (fields : list (string * json)).

(** Python's [None] for a nullable integer column. *)
Definition json_of_nullable (v : option nat) : json :=
  match v with
  | Some n => JNum n
  | None => JNull
  end.

Fixpoint assoc {A : Type} (key : string) (kvs : list (string * A)) : option A :=
  match kvs with
  | [] => None
  | (k, v) :: rest => if String.eqb k key then Some v else assoc key rest
  end.

(** The value of a field of a JSON object. *)
Definition json_field (key : string) (j : json) : option json :=
  match j with
  | JObj fields => assoc key fields
  | _ => None
  end.

(** ** models.py *)

Module User.
Record t : Type := Build
  { id : nat; email : string; password : string; is_active : bool }.

Definition serialize (self : t) : json :=
  JObj [("id", JNum (id self)); ("email", JStr (email self))].
End User.

Module People.
Record t : Type := Build
  { id : nat; name : string; birth_year : string; gender : string }.

Definition serialize (self : t) : json :=
  JObj [("id", JNum (id self)); ("name", JStr (name self));
        ("birth_year", JStr (birth_year self)); ("gender", JStr (gender self))].
End People.

Module Planet.
Record t : Type := Build
  { id : nat; name : string; climate : string; terrain : string }.

Definition serialize (self : t) : json :=
  JObj [("id", JNum (id self)); ("name", JStr (name self));
        ("climate", JStr (climate self)); ("terrain", JStr (terrain self))].
End Planet.

Module Favorite.
Record t : Type := Build
  { id : nat; user_id : nat; people_id : option nat; planet_id : option nat }.

Definition serialize (self : t) : json :=
  JObj [("id", JNum (id self)); ("user_id", JNum (user_id self));
        ("people_id", json_of_nullable (people_id self));
        ("planet_id", json_of_nullable (planet_id self))].
End Favorite.

(** ** The database and the ORM session *)

Record Store : Type := mkStore
  { users : list User.t;
    people : list People.t;
    planets : list Planet.t;
    favorites : list Favorite.t }.

(** What [db.session] holds between [add]/[delete] and [commit]: a new object
    has no primary key yet, a deleted one is named by its primary key. *)
Inductive pending : Type :=
| NewUser (email password : string) (is_active : bool)
| NewFavorite (user_id : nat) (people_id planet_id : option nat)
| DeleteFavorite (fav : Favorite.t).

Record Db : Type := mkDb { tables : Store; session : list pending }.

(** The primary key given to an inserted row: one more than the largest
    rowid of the table, as SQLite, the default database of app.py, gives it.
    SQLite does not check the foreign keys and the length of a String
    column, so a flush has no failure case. *)
Definition next_id (ids : list nat) : nat := S (list_max ids).

Definition flush (st : Store) (op : pending) : Store :=
  match op with
  | NewUser e p a =>
      mkStore (users st ++ [User.Build (next_id (map User.id (users st))) e p a])
              (people st) (planets st) (favorites st)
  | NewFavorite u pe pl =>
      mkStore (users st) (people st) (planets st)
              (favorites st ++
                 [Favorite.Build (next_id (map Favorite.id (favorites st))) u pe pl])
  | DeleteFavorite fav =>
      mkStore (users st) (people st) (planets st)
              (filter (fun f => negb (Favorite.id f =? Favorite.id fav)) (favorites st))
  end.

(** ** The handler monad *)

Definition M (A : Type) : Type := Db -> A * Db.

Definition ret {A : Type} (a : A) : M A := fun d => (a, d).

Definition bind {A B : Type} (m : M A) (k : A -> M B) : M B :=
  fun d => let (a, d') := m d in k a d'.

Notation "x <- m ;; k" := (bind m (fun x => k))
  (at level 61, m at next level, right associativity).
Notation "m ;;; k" := (bind m (fun _ => k))
  (at level 61, right associativity).

Definition query {A : Type} (q : Store -> A) : M A := fun d => (q (tables d), d).

Definition db_session_add (op : pending) : M unit :=
  fun d => (tt, mkDb (tables d) (session d ++ [op])).

Definition db_session_delete (fav : Favorite.t) : M unit :=
  db_session_add (DeleteFavorite fav).

Definition db_session_commit : M unit :=
  fun d => (tt, mkDb (fold_left flush (session d) (tables d)) []).

(** A response is [(jsonify(body), status)]. *)
Definition Response : Type := (json * nat)%type.

Definition status (r : Response) : nat := snd r.
Definition body (r : Response) : json := fst r.

(** One request: the handler runs on a fresh session, and what it did not
    commit is dropped with the session. *)
Definition run (h : M Response) (st : Store) : Response * Store :=
  let (r, d) := h (mkDb st []) in (r, tables d).

(** ** Queries *)

(** [Model.query.get(id)]: the row with that primary key. *)
Definition People_query_get (people_id : nat) (st : Store) : option People.t :=
  find (fun p => People.id p =? people_id) (people st).

Definition Planet_query_get (planet_id : nat) (st : Store) : option Planet.t :=
  find (fun p => Planet.id p =? planet_id) (planets st).

(** A bound parameter compared with a non-null text column: [None] (SQL NULL)
    matches no row. *)
Definition text_eq (column : string) (value : option string) : bool :=
  match value with
  | Some s => String.eqb column s
  | None => false
  end.

Definition nullable_eq (column : option nat) (value : nat) : bool :=
  match column with
  | Some n => n =? value
  | None => false
  end.

Definition by_email (email : option string) (u : User.t) : bool :=
  text_eq (User.email u) email.

Definition by_email_password (email password : option string) (u : User.t) : bool :=
  text_eq (User.email u) email && text_eq (User.password u) password.

Definition by_user (user_id : nat) (f : Favorite.t) : bool :=
  Favorite.user_id f =? user_id.

Definition by_user_planet (user_id planet_id : nat) (f : Favorite.t) : bool :=
  (Favorite.user_id f =? user_id) && nullable_eq (Favorite.planet_id f) planet_id.

Definition by_user_people (user_id people_id : nat) (f : Favorite.t) : bool :=
  (Favorite.user_id f =? user_id) && nullable_eq (Favorite.people_id f) people_id.

(** [filter_by(...).first()] and [filter_by(...).all()]. *)
Definition User_first (cond : User.t -> bool) (st : Store) : option User.t :=
  find cond (users st).

Definition Favorite_first (cond : Favorite.t -> bool) (st : Store) : option Favorite.t :=
  find cond (favorites st).

Definition Favorite_all (cond : Favorite.t -> bool) (st : Store) : list Favorite.t :=
  filter cond (favorites st).

(** ** The request body of /signup and /login *)

(** [request.get_json()]: a JSON object with text values. *)
Definition Body : Type := list (string * string).

(** [data.get(key)], [None] when the key is absent. *)
Definition dict_get (key : string) (data : Body) : option string := assoc key data.

(** Python's truth value of [None] and of a [str]. *)
Definition truthy (v : option string) : bool :=
  match v with
  | None => false
  | Some s => negb (String.eqb s EmptyString)
  end.

Definition error (msg : string) : json := JObj [("error", JStr msg)].
Definition msg (text : string) : json := JObj [("msg", JStr text)].

(** ** app.py: the database configuration *)

(** Python's [s.replace(old, new)] for a non-empty [old]: the occurrences of
    [old] are replaced from left to right, without overlap.  [skip] counts
    the characters of the occurrence just replaced that are still to pass. *)
Fixpoint replace_from (old new : string) (skip : nat) (s : string) : string :=
  match s with
  | EmptyString => EmptyString
  | String c rest =>
      match skip with
      | S k => replace_from old new k rest
      | 0 =>
          if prefix old s then
            new ++ replace_from old new (String.length old - 1) rest
          else String c (replace_from old new 0 rest)
      end
  end.

Definition str_replace (old new s : string) : string := replace_from old new 0 s.

(** [SQLALCHEMY_DATABASE_URI] from [os.getenv("DATABASE_URL")]. *)
Definition database_uri (db_url : option string) : string :=
  match db_url with
  | Some url => str_replace "postgres://" "postgresql://" url
  | None => "sqlite:////tmp/test.db"
  end.

(** [old] occurs in [s]. *)
Definition occurs (old s : string) : Prop := exists a b, s = a ++ old ++ b.

(** Python's [old in s]. *)
Fixpoint contains (old s : string) : bool :=
  match s with
  | EmptyString => prefix old EmptyString
  | String _ rest => prefix old s || contains old rest
  end.

(** ** app.py: the endpoints *)

Section Api.

(** [flask_jwt_extended.create_access_token(identity=...)]: the signed token
    for an identity.  The library is a parameter of the development; it
    also puts the time of issue and a fresh token id into the token, which
    a function of the identity does not show, so no statement below
    compares the tokens of two calls. *)
Variable create_access_token : nat -> string.

Definition handle_hello : M Response :=
  ret (msg "Hello, this is your GET /user response", 200).

Definition signup (data : Body) : M Response :=
  let email := dict_get "email" data in
  let password := dict_get "password" data in
  if negb (truthy email) || negb (truthy password) then
    ret (error "Missing email or password", 400)
  else
    existing <- query (User_first (by_email email)) ;;
    match existing with
    | Some _ => ret (error "Email already exists", 400)
    | None =>
        match email, password with
        | Some e, Some p =>
            db_session_add (NewUser e p true) ;;;
            db_session_commit ;;;
            ret (msg "User created", 201)
        | _, _ => ret (error "Missing email or password", 400)
        end
    end.

Definition login (data : Body) : M Response :=
  let email := dict_get "email" data in
  let password := dict_get "password" data in
  user <- query (User_first (by_email_password email password)) ;;
  match user with
  | None => ret (error "Invalid credentials", 401)
  | Some user =>
      let access_token := create_access_token (User.id user) in
      ret (JObj [("token", JStr access_token)], 200)
  end.

Definition get_people : M Response :=
  people <- query people ;;
  ret (JArr (map People.serialize people), 200).

Definition get_person (people_id : nat) : M Response :=
  person <- query (People_query_get people_id) ;;
  match person with
  | None => ret (error "Person not found", 404)
  | Some person => ret (People.serialize person, 200)
  end.

Definition get_planets : M Response :=
  planets <- query planets ;;
  ret (JArr (map Planet.serialize planets), 200).

Definition get_planet (planet_id : nat) : M Response :=
  planet <- query (Planet_query_get planet_id) ;;
  match planet with
  | None => ret (error "Planet not found", 404)
  | Some planet => ret (Planet.serialize planet, 200)
  end.

Definition get_users : M Response :=
  users <- query users ;;
  ret (JArr (map User.serialize users), 200).

(** The handlers behind [@jwt_required()] take the identity that
    [get_jwt_identity()] returns, [current_user_id], as an argument. *)
Definition get_favorites (current_user_id : nat) : M Response :=
  favorites <- query (Favorite_all (by_user current_user_id)) ;;
  ret (JArr (map Favorite.serialize favorites), 200).

Definition add_favorite_planet (current_user_id planet_id : nat) : M Response :=
  planet <- query (Planet_query_get planet_id) ;;
  match planet with
  | None => ret (error "Planet not found", 404)
  | Some _ =>
      exists_ <- query (Favorite_first (by_user_planet current_user_id planet_id)) ;;
      match exists_ with
      | Some _ => ret (msg "Planet already in favorites", 400)
      | None =>
          db_session_add (NewFavorite current_user_id None (Some planet_id)) ;;;
          db_session_commit ;;;
          favorites <- query (Favorite_all (by_user current_user_id)) ;;
          ret (JArr (map Favorite.serialize favorites), 200)
      end
  end.

Definition add_favorite_person (current_user_id people_id : nat) : M Response :=
  person <- query (People_query_get people_id) ;;
  match person with
  | None => ret (error "Person not found", 404)
  | Some _ =>
      exists_ <- query (Favorite_first (by_user_people current_user_id people_id)) ;;
      match exists_ with
      | Some _ => ret (msg "Person already in favorites", 400)
      | None =>
          db_session_add (NewFavorite current_user_id (Some people_id) None) ;;;
          db_session_commit ;;;
          favorites <- query (Favorite_all (by_user current_user_id)) ;;
          ret (JArr (map Favorite.serialize favorites), 200)
      end
  end.

Definition remove_favorite_planet (current_user_id planet_id : nat) : M Response :=
  fav <- query (Favorite_first (by_user_planet current_user_id planet_id)) ;;
  match fav with
  | None => ret (error "Favorite planet not found", 404)
  | Some fav =>
      db_session_delete fav ;;;
      db_session_commit ;;;
      favorites <- query (Favorite_all (by_user current_user_id)) ;;
      ret (JArr (map Favorite.serialize favorites), 200)
  end.

Definition remove_favorite_person (current_user_id people_id : nat) : M Response :=
  fav <- query (Favorite_first (by_user_people current_user_id people_id)) ;;
  match fav with
  | None => ret (error "Favorite person not found", 404)
  | Some fav =>
      db_session_delete fav ;;;
      db_session_commit ;;;
      favorites <- query (Favorite_all (by_user current_user_id)) ;;
      ret (JArr (map Favorite.serialize favorites), 200)
  end.

(** ** The router *)

(** A request that reached a handler; on a protected route it carries the
    identity of the bearer token.  The sitemap of [/] is built by utils.py
    from the URL map and does not touch the database; it has no constructor
    here. *)
Inductive Request : Type :=
| GET_user
| POST_signup (data : Body)
| POST_login (data : Body)
| GET_people
| GET_people_id (people_id : nat)
| GET_planets
| GET_planets_id (planet_id : nat)
| GET_users
| GET_users_favorites (current_user_id : nat)
| POST_favorite_planet (current_user_id planet_id : nat)
| POST_favorite_people (current_user_id people_id : nat)
| DELETE_favorite_planet (current_user_id planet_id : nat)
| DELETE_favorite_people (current_user_id people_id : nat).

Definition route (req : Request) : M Response :=
  match req with
  | GET_user => handle_hello
  | POST_signup data => signup data
  | POST_login data => login data
  | GET_people => get_people
  | GET_people_id i => get_person i
  | GET_planets => get_planets
  | GET_planets_id i => get_planet i
  | GET_users => get_users
  | GET_users_favorites u => get_favorites u
  | POST_favorite_planet u i => add_favorite_planet u i
  | POST_favorite_people u i => add_favorite_person u i
  | DELETE_favorite_planet u i => remove_favorite_planet u i
  | DELETE_favorite_people u i => remove_favorite_person u i
  end.

Definition handle (req : Request) (st : Store) : Response * Store :=
  run (route req) st.

(** The states of the service: it starts with no Favorite row (users, people
    and planets may be seeded) and serves one request after the other. *)
Inductive reachable : Store -> Prop :=
| reachable_init st : favorites st = [] -> reachable st
| reachable_step st req : reachable st -> reachable (snd (handle req st)).

(** ** What the properties speak about *)

Definition planet_exists (planet_id : nat) (st : Store) : Prop :=
  exists p, In p (planets st) /\ Planet.id p = planet_id.

Definition person_exists (people_id : nat) (st : Store) : Prop :=
  exists p, In p (people st) /\ People.id p = people_id.

Definition is_favorite_planet (user_id planet_id : nat) (f : Favorite.t) : Prop :=
  Favorite.user_id f = user_id /\ Favorite.planet_id f = Some planet_id.

Definition is_favorite_person (user_id people_id : nat) (f : Favorite.t) : Prop :=
  Favorite.user_id f = user_id /\ Favorite.people_id f = Some people_id.

Definition has_favorite_planet (user_id planet_id : nat) (st : Store) : Prop :=
  exists f, In f (favorites st) /\ is_favorite_planet user_id planet_id f.

Definition has_favorite_person (user_id people_id : nat) (st : Store) : Prop :=
  exists f, In f (favorites st) /\ is_favorite_person user_id people_id f.

(** The rows of a user, in table order: what the favorites endpoints list. *)
Definition favorites_of (user_id : nat) (st : Store) : list Favorite.t :=
  filter (fun f => Favorite.user_id f =? user_id) (favorites st).

Definition with_favorites (st : Store) (favs : list Favorite.t) : Store :=
  mkStore (users st) (people st) (planets st) favs.

Definition with_users (st : Store) (us : list User.t) : Store :=
  mkStore us (people st) (planets st) (favorites st).

(** The store after the commit of one new Favorite. *)
Definition inserted (st : Store) (u : nat) (pe pl : option nat) : Store :=
  flush st (NewFavorite u pe pl).

(** The response of the favorites endpoints on success. *)
Definition list_response (u : nat) (st : Store) : Response :=
  (JArr (map Favorite.serialize (favorites_of u st)), 200).

(** At most one Favorite row per (user, planet) and per (user, person). *)
Definition favorites_unique (st : Store) : Prop :=
  forall u i,
    List.length (filter (by_user_planet u i) (favorites st)) <= 1 /\
    List.length (filter (by_user_people u i) (favorites st)) <= 1.

(** The primary key of the favorite table. *)
Definition favorite_ids_unique (st : Store) : Prop :=
  NoDup (map Favorite.id (favorites st)).

(** The [unique=True] of [User.email]. *)
Definition emails_unique (st : Store) : Prop :=
  NoDup (map User.email (users st)).

(** A Favorite that links to a person or to a planet, not to both and not
    to neither. *)
Definition one_target (f : Favorite.t) : Prop :=
  match Favorite.people_id f, Favorite.planet_id f with
  | Some _, None => True
  | None, Some _ => True
  | _, _ => False
  end.

(** A user row has the given email. *)
Definition email_taken (e : string) (st : Store) : Prop :=
  exists u, In u (users st) /\ User.email u = e.

(** A user row has exactly the given email and password. *)
Definition credentials_of (email password : option string) (u : User.t) : Prop :=
  Some (User.email u) = email /\ Some (User.password u) = password.

(** The contract of /signup, for a given reading [missing] of "email or
    password is missing". *)
Definition signup_contract (missing : option string -> Prop)
    (data : Body) (st : Store) : Prop :=
  let email := dict_get "email" data in
  let password := dict_get "password" data in
  let r := fst (run (signup data) st) in
  let st' := snd (run (signup data) st) in
  (missing email \/ missing password -> status r = 400 /\ st' = st) /\
  (forall e, email = Some e -> email_taken e st -> status r = 400 /\ st' = st) /\
  (forall e p, email = Some e -> password = Some p ->
     ~ missing email -> ~ missing password -> ~ email_taken e st ->
     status r = 201 /\
     exists i, st' = with_users st (users st ++ [User.Build i e p true])).

(** A field is missing when the body does not have it. *)
Definition absent (v : option string) : Prop := v = None.

(** A field is missing when the body does not have it or has it empty. *)
Definition absent_or_empty (v : option string) : Prop := v = None \/ v = Some EmptyString.



Definition is_login (req : Request) : bool :=
  match req with
  | POST_login _ => true
  | _ => false
  end.

(** The contract of the two add-favorite endpoints: [target_exists] says the
    planet or person is in the store, [already] that the user has it as a
    favorite, [row k] is the new row with primary key [k]. *)
Definition add_favorite_contract (target_exists already : Prop)
    (row : nat -> Favorite.t) (u : nat) (st : Store)
    (out : Response * Store) : Prop :=
  let r := fst out in
  let st' := snd out in
  (~ target_exists -> status r = 404 /\ st' = st) /\
  (target_exists -> already -> status r = 400 /\ st' = st) /\
  (target_exists -> ~ already ->
     exists k,
       st' = with_favorites st (favorites st ++ [row k]) /\
       r = list_response u st' /\
       In (row k) (favorites_of u st')).

(** What the second of two equal add-favorite requests does, [st1] being the
    store between the two. *)
Definition rejected_unchanged (u : nat) (st1 : Store)
    (out2 : Response * Store) : Prop :=
  status (fst out2) = 400 /\
  snd out2 = st1 /\
  favorites_of u (snd out2) = favorites_of u st1 /\
  List.length (favorites_of u (snd out2)) = List.length (favorites_of u st1).

(** The user has at most one favorite row that meets [cond]. *)
Definition at_most_one_row (cond : Favorite.t -> bool) (st : Store) : Prop :=
  List.length (filter cond (favorites st)) <= 1.

(** The contract of the two remove-favorite endpoints: [target] says that a
    row is the favorite of the user for the planet or person of the
    request, [single] is the condition under which the returned list is
    said to hold no such favorite any more. *)
Definition remove_favorite_contract (single : Prop)
    (target : Favorite.t -> Prop)
    (u : nat) (st : Store) (out : Response * Store) : Prop :=
  let r := fst out in
  let st' := snd out in
  (~ (exists f, In f (favorites st) /\ target f) ->
     status r = 404 /\ st' = st) /\
  ((exists f, In f (favorites st) /\ target f) ->
     exists f,
       In f (favorites st) /\ target f /\
       st' = with_favorites st (favorites st') /\
       ~ In f (favorites st') /\
       (forall g, In g (favorites st') -> In g (favorites st)) /\
       (forall g, In g (favorites st) -> Favorite.id g <> Favorite.id f ->
                  In g (favorites st')) /\
       r = list_response u st' /\
       (single -> forall g, In g (favorites_of u st') -> ~ target g)).

(** What one request can do to the favorite table: nothing, the append of a
    row for a planet or a person the user did not have, or the removal of
    the rows with the primary key of one of its rows. *)
Inductive favorites_step (st : Store) : list Favorite.t -> Prop :=
| step_same : favorites_step st (favorites st)
| step_add_planet u i :
    ~ has_favorite_planet u i st ->
    favorites_step st
      (favorites st ++
         [Favorite.Build (next_id (map Favorite.id (favorites st))) u None (Some i)])
| step_add_person u i :
    ~ has_favorite_person u i st ->
    favorites_step st
      (favorites st ++
         [Favorite.Build (next_id (map Favorite.id (favorites st))) u (Some i) None])
| step_delete f :
    In f (favorites st) ->
    favorites_step st
      (filter (fun g => negb (Favorite.id g =? Favorite.id f)) (favorites st)).

(** What one request does, by the way it ends: with the store as it was, or
    with the commit of one new user, of one new favorite, or of the removal
    of a favorite. *)
Inductive outcome (st : Store) : Request -> Response * Store -> Prop :=
| outcome_same req r :
    In (status r) [200; 400; 401; 404] ->
    outcome st req (r, st)
| outcome_signup data e p :
    dict_get "email" data = Some e ->
    dict_get "password" data = Some p ->
    e <> EmptyString -> p <> EmptyString ->
    ~ email_taken e st ->
    outcome st (POST_signup data)
      ((msg "User created", 201), flush st (NewUser e p true))
| outcome_add_planet u i :
    planet_exists i st -> ~ has_favorite_planet u i st ->
    outcome st (POST_favorite_planet u i)
      (list_response u (inserted st u None (Some i)), inserted st u None (Some i))
| outcome_add_person u i :
    person_exists i st -> ~ has_favorite_person u i st ->
    outcome st (POST_favorite_people u i)
      (list_response u (inserted st u (Some i) None), inserted st u (Some i) None)
| outcome_remove_planet u i f :
    Favorite_first (by_user_planet u i) st = Some f ->
    outcome st (DELETE_favorite_planet u i)
      (list_response u (flush st (DeleteFavorite f)), flush st (DeleteFavorite f))
| outcome_remove_person u i f :
    Favorite_first (by_user_people u i) st = Some f ->
    outcome st (DELETE_favorite_people u i)
      (list_response u (flush st (DeleteFavorite f)), flush st (DeleteFavorite f)).

(** The routes with method GET. *)
Definition is_get (req : Request) : bool :=
  match req with
  | GET_user | GET_people | GET_people_id _ | GET_planets | GET_planets_id _
  | GET_users | GET_users_favorites _ => true
  | _ => false
  end.

(** The primary keys of the other tables. *)
Definition user_ids_unique (st : Store) : Prop := NoDup (map User.id (users st)).

(** A user row as signup makes it: active, with an email and a password
    that are not empty. *)
Definition user_valid (u : User.t) : Prop :=
  User.is_active u = true /\
  User.email u <> EmptyString /\ User.password u <> EmptyString.

(** Every favorite links to a planet or person that is in the store. *)
Definition targets_exist (st : Store) : Prop :=
  forall f, In f (favorites st) ->
    (forall i, Favorite.planet_id f = Some i -> planet_exists i st) /\
    (forall i, Favorite.people_id f = Some i -> person_exists i st).

(** ** Sample data *)

Definition luke : People.t := People.Build 1 "Luke Skywalker" "19BBY" "male".
Definition tatooine : Planet.t := Planet.Build 1 "Tatooine" "arid" "desert".

(** A seeded database without users and favorites. *)
Definition seeded : Store := mkStore [] [luke] [tatooine] [].

Definition credentials : Body := [("email", "a@b.com"); ("password", "x")].
Definition empty_email : Body := [("email", EmptyString); ("password", "x")].

(** The seeded database after the signup of a@b.com, and the same with
    another password. *)
Definition with_user : Store :=
  mkStore [User.Build 1 "a@b.com" "x" true] [luke] [tatooine] [].

(** The same after user 1 made Tatooine a favorite. *)
Definition with_favorite : Store :=
  mkStore [User.Build 1 "a@b.com" "x" true] [luke] [tatooine]
          [Favorite.Build 1 1 None (Some 1)].


(** A second signup body, and what follows the scheme in a database URL. *)
Definition other_credentials : Body := [("email", "c@d.com"); ("password", "z")].
Definition sample_location : string := "user:secret@db.example.com:5432/starwars".

(** A stand-in for the token library: the identity in clear text. *)
Definition sample_token (identity : nat) : string :=
  "sub:" ++ NilEmpty.string_of_uint (Nat.to_uint identity).

(** ** The handlers as equations on stores *)

Lemma by_user_planet_spec u i f :
  by_user_planet u i f = true <-> is_favorite_planet u i f.
Proof.
  unfold by_user_planet, is_favorite_planet, nullable_eq.
  rewrite andb_true_iff, Nat.eqb_eq.
  destruct (Favorite.planet_id f) as [n|].
  - rewrite Nat.eqb_eq. split; intros [Hu Hn]; split; congruence.
  - split; intros [_ Hn]; discriminate.
Qed.

Lemma by_user_people_spec u i f :
  by_user_people u i f = true <-> is_favorite_person u i f.
Proof.
  unfold by_user_people, is_favorite_person, nullable_eq.
  rewrite andb_true_iff, Nat.eqb_eq.
  destruct (Favorite.people_id f) as [n|].
  - rewrite Nat.eqb_eq. split; intros [Hu Hn]; split; congruence.
  - split; intros [_ Hn]; discriminate.
Qed.

Lemma find_none_iff {A : Type} (cond : A -> bool) (l : list A) :
  find cond l = None <-> forall x, In x l -> cond x = false.
Proof.
  split.
  - apply find_none.
  - induction l as [|a l IH]; intros H; simpl; [reflexivity|].
    rewrite (H a (or_introl eq_refl)). apply IH.
    intros x Hx. apply H. now right.
Qed.

Lemma Planet_query_get_none i st :
  Planet_query_get i st = None <-> ~ planet_exists i st.
Proof.
  unfold Planet_query_get, planet_exists. rewrite find_none_iff. split.
  - intros H [p [Hin Hid]]. apply H in Hin. apply Nat.eqb_neq in Hin. auto.
  - intros H p Hin. apply Nat.eqb_neq. intros Hid. apply H. eauto.
Qed.

Lemma People_query_get_none i st :
  People_query_get i st = None <-> ~ person_exists i st.
Proof.
  unfold People_query_get, person_exists. rewrite find_none_iff. split.
  - intros H [p [Hin Hid]]. apply H in Hin. apply Nat.eqb_neq in Hin. auto.
  - intros H p Hin. apply Nat.eqb_neq. intros Hid. apply H. eauto.
Qed.

Lemma first_planet_none u i st :
  Favorite_first (by_user_planet u i) st = None <-> ~ has_favorite_planet u i st.
Proof.
  unfold Favorite_first, has_favorite_planet. rewrite find_none_iff. split.
  - intros H [f [Hin Hf]]. apply by_user_planet_spec in Hf.
    rewrite (H f Hin) in Hf. discriminate.
  - intros H f Hin. destruct (by_user_planet u i f) eqn:E; [|reflexivity].
    exfalso. apply H. exists f. split; [assumption|]. now apply by_user_planet_spec.
Qed.

Lemma first_people_none u i st :
  Favorite_first (by_user_people u i) st = None <-> ~ has_favorite_person u i st.
Proof.
  unfold Favorite_first, has_favorite_person. rewrite find_none_iff. split.
  - intros H [f [Hin Hf]]. apply by_user_people_spec in Hf.
    rewrite (H f Hin) in Hf. discriminate.
  - intros H f Hin. destruct (by_user_people u i f) eqn:E; [|reflexivity].
    exfalso. apply H. exists f. split; [assumption|]. now apply by_user_people_spec.
Qed.

Lemma run_add_favorite_planet u i st :
  run (add_favorite_planet u i) st =
  match Planet_query_get i st with
  | None => ((error "Planet not found", 404), st)
  | Some _ =>
      match Favorite_first (by_user_planet u i) st with
      | Some _ => ((msg "Planet already in favorites", 400), st)
      | None => (list_response u (inserted st u None (Some i)),
                 inserted st u None (Some i))
      end
  end.
Proof.
  unfold run, add_favorite_planet, bind, query, ret; simpl.
  destruct (Planet_query_get i st); simpl; [|reflexivity].
  destruct (Favorite_first (by_user_planet u i) st); simpl; reflexivity.
Qed.

Lemma run_add_favorite_person u i st :
  run (add_favorite_person u i) st =
  match People_query_get i st with
  | None => ((error "Person not found", 404), st)
  | Some _ =>
      match Favorite_first (by_user_people u i) st with
      | Some _ => ((msg "Person already in favorites", 400), st)
      | None => (list_response u (inserted st u (Some i) None),
                 inserted st u (Some i) None)
      end
  end.
Proof.
  unfold run, add_favorite_person, bind, query, ret; simpl.
  destruct (People_query_get i st); simpl; [|reflexivity].
  destruct (Favorite_first (by_user_people u i) st); simpl; reflexivity.
Qed.

Lemma run_remove_favorite_planet u i st :
  run (remove_favorite_planet u i) st =
  match Favorite_first (by_user_planet u i) st with
  | None => ((error "Favorite planet not found", 404), st)
  | Some fav => (list_response u (flush st (DeleteFavorite fav)),
                 flush st (DeleteFavorite fav))
  end.
Proof.
  unfold run, remove_favorite_planet, bind, query, ret; simpl.
  destruct (Favorite_first (by_user_planet u i) st); simpl; reflexivity.
Qed.

Lemma run_remove_favorite_person u i st :
  run (remove_favorite_person u i) st =
  match Favorite_first (by_user_people u i) st with
  | None => ((error "Favorite person not found", 404), st)
  | Some fav => (list_response u (flush st (DeleteFavorite fav)),
                 flush st (DeleteFavorite fav))
  end.
Proof.
  unfold run, remove_favorite_person, bind, query, ret; simpl.
  destruct (Favorite_first (by_user_people u i) st); simpl; reflexivity.
Qed.

(** ** Adding a favorite *)

Lemma favorites_of_app u st row :
  Favorite.user_id row = u ->
  In row (favorites_of u (with_favorites st (favorites st ++ [row]))).
Proof.
  intros Hu. unfold favorites_of, with_favorites; simpl.
  apply filter_In. split.
  - apply in_or_app. right. now left.
  - now apply Nat.eqb_eq.
Qed.

Lemma add_favorite_planet_contract u i st :
  add_favorite_contract (planet_exists i st) (has_favorite_planet u i st)
    (fun k => Favorite.Build k u None (Some i)) u st
    (run (add_favorite_planet u i) st).
Proof.
  unfold add_favorite_contract. rewrite run_add_favorite_planet.
  destruct (Planet_query_get i st) as [p|] eqn:Hp.
  - assert (Hex : planet_exists i st).
    { apply find_some in Hp. destruct Hp as [Hin Hid].
      exists p. split; [assumption|]. now apply Nat.eqb_eq. }
    destruct (Favorite_first (by_user_planet u i) st) as [f|] eqn:Hf.
    + assert (Hal : has_favorite_planet u i st).
      { apply find_some in Hf. destruct Hf as [Hin Hc].
        exists f. split; [assumption|]. now apply by_user_planet_spec. }
      simpl. repeat split; try reflexivity; intros; contradiction.
    + apply first_planet_none in Hf. simpl.
      split; [intros; contradiction|]. split; [intros; contradiction|].
      intros _ _. eexists. split; [reflexivity|]. split; [reflexivity|].
      now apply favorites_of_app.
  - apply Planet_query_get_none in Hp. simpl.
    repeat split; try reflexivity; intros; contradiction.
Qed.

Lemma add_favorite_person_contract u i st :
  add_favorite_contract (person_exists i st) (has_favorite_person u i st)
    (fun k => Favorite.Build k u (Some i) None) u st
    (run (add_favorite_person u i) st).
Proof.
  unfold add_favorite_contract. rewrite run_add_favorite_person.
  destruct (People_query_get i st) as [p|] eqn:Hp.
  - assert (Hex : person_exists i st).
    { apply find_some in Hp. destruct Hp as [Hin Hid].
      exists p. split; [assumption|]. now apply Nat.eqb_eq. }
    destruct (Favorite_first (by_user_people u i) st) as [f|] eqn:Hf.
    + assert (Hal : has_favorite_person u i st).
      { apply find_some in Hf. destruct Hf as [Hin Hc].
        exists f. split; [assumption|]. now apply by_user_people_spec. }
      simpl. repeat split; try reflexivity; intros; contradiction.
    + apply first_people_none in Hf. simpl.
      split; [intros; contradiction|]. split; [intros; contradiction|].
      intros _ _. eexists. split; [reflexivity|]. split; [reflexivity|].
      now apply favorites_of_app.
  - apply People_query_get_none in Hp. simpl.
    repeat split; try reflexivity; intros; contradiction.
Qed.

(** C1.  POST /api/favorite/planet/{i} for the authenticated user [u]
    returns 404 when no planet [i] exists; otherwise 400, inserting nothing,
    when [u] already has a favorite for planet [i]; otherwise it appends
    exactly one row [(u, planet i)] and returns 200 with the list of all
    favorites of [u] in the new store, the new row among them.  The same
    holds for POST /api/favorite/people/{i} with people for planets. *)
Theorem add_favorite_endpoints u i st :
  add_favorite_contract (planet_exists i st) (has_favorite_planet u i st)
    (fun k => Favorite.Build k u None (Some i)) u st
    (run (add_favorite_planet u i) st) /\
  add_favorite_contract (person_exists i st) (has_favorite_person u i st)
    (fun k => Favorite.Build k u (Some i) None) u st
    (run (add_favorite_person u i) st).
Proof.
  split.
  - apply add_favorite_planet_contract.
  - apply add_favorite_person_contract.
Qed.

(** ** What a request does to the favorite table *)

Lemma handle_favorites req st :
  favorites_step st (favorites (snd (handle req st))).
Proof.
  unfold handle. destruct req as [ |data|data| |i| |i| |u|u i|u i|u i|u i]; simpl route.
  - apply step_same.
  - unfold run, signup, bind, query, ret; simpl.
    destruct (negb (truthy (dict_get "email" data))
              || negb (truthy (dict_get "password" data))); simpl; [apply step_same|].
    destruct (User_first (by_email (dict_get "email" data)) st); simpl; [apply step_same|].
    destruct (dict_get "email" data); simpl; [|apply step_same].
    destruct (dict_get "password" data); simpl; apply step_same.
  - unfold run, login, bind, query, ret; simpl.
    destruct (User_first _ st); simpl; apply step_same.
  - apply step_same.
  - unfold run, get_person, bind, query, ret; simpl.
    destruct (People_query_get i st); simpl; apply step_same.
  - apply step_same.
  - unfold run, get_planet, bind, query, ret; simpl.
    destruct (Planet_query_get i st); simpl; apply step_same.
  - apply step_same.
  - apply step_same.
  - rewrite run_add_favorite_planet.
    destruct (Planet_query_get i st); [|apply step_same].
    destruct (Favorite_first (by_user_planet u i) st) eqn:Hf; [apply step_same|].
    apply first_planet_none in Hf. simpl. now apply step_add_planet.
  - rewrite run_add_favorite_person.
    destruct (People_query_get i st); [|apply step_same].
    destruct (Favorite_first (by_user_people u i) st) eqn:Hf; [apply step_same|].
    apply first_people_none in Hf. simpl. now apply step_add_person.
  - rewrite run_remove_favorite_planet.
    destruct (Favorite_first (by_user_planet u i) st) as [f|] eqn:Hf; [|apply step_same].
    apply find_some in Hf. simpl. apply step_delete. tauto.
  - rewrite run_remove_favorite_person.
    destruct (Favorite_first (by_user_people u i) st) as [f|] eqn:Hf; [|apply step_same].
    apply find_some in Hf. simpl. apply step_delete. tauto.
Qed.

Lemma filter_nil_of_false {A : Type} (c : A -> bool) (l : list A) :
  (forall x, In x l -> c x = false) -> filter c l = [].
Proof.
  induction l as [|a l IH]; intros H; simpl; [reflexivity|].
  rewrite (H a (or_introl eq_refl)). apply IH.
  intros x Hx. apply H. now right.
Qed.

Lemma filter_filter_length {A : Type} (c d : A -> bool) (l : list A) :
  List.length (filter c (filter d l)) <= List.length (filter c l).
Proof.
  induction l as [|a l IH]; simpl; [lia|].
  destruct (d a); simpl; destruct (c a); simpl; lia.
Qed.

Lemma no_planet_favorite_filter u i st :
  ~ has_favorite_planet u i st -> filter (by_user_planet u i) (favorites st) = [].
Proof.
  intros H. apply filter_nil_of_false. intros f Hin.
  destruct (by_user_planet u i f) eqn:E; [|reflexivity].
  exfalso. apply H. exists f. split; [assumption|]. now apply by_user_planet_spec.
Qed.

Lemma no_person_favorite_filter u i st :
  ~ has_favorite_person u i st -> filter (by_user_people u i) (favorites st) = [].
Proof.
  intros H. apply filter_nil_of_false. intros f Hin.
  destruct (by_user_people u i f) eqn:E; [|reflexivity].
  exfalso. apply H. exists f. split; [assumption|]. now apply by_user_people_spec.
Qed.

Lemma by_user_planet_row k u i u' i' :
  by_user_planet u' i' (Favorite.Build k u None (Some i)) = true -> u' = u /\ i' = i.
Proof.
  intros H. apply by_user_planet_spec in H. destruct H as [Hu Hi].
  simpl in *. split; congruence.
Qed.

Lemma by_user_people_row k u i u' i' :
  by_user_people u' i' (Favorite.Build k u (Some i) None) = true -> u' = u /\ i' = i.
Proof.
  intros H. apply by_user_people_spec in H. destruct H as [Hu Hi].
  simpl in *. split; congruence.
Qed.

Lemma by_user_people_planet_row k u pl u' i' :
  by_user_people u' i' (Favorite.Build k u None pl) = false.
Proof. unfold by_user_people; simpl. apply andb_false_r. Qed.

Lemma by_user_planet_people_row k u pe u' i' :
  by_user_planet u' i' (Favorite.Build k u pe None) = false.
Proof. unfold by_user_planet; simpl. apply andb_false_r. Qed.

Lemma filter_snoc_length {A : Type} (c : A -> bool) (l : list A) (x : A) :
  List.length (filter c (l ++ [x])) =
  List.length (filter c l) + (if c x then 1 else 0).
Proof.
  rewrite filter_app, length_app. simpl. now destruct (c x).
Qed.

Lemma favorites_step_unique st favs :
  favorites_step st favs -> favorites_unique st ->
  favorites_unique (with_favorites st favs).
Proof.
  intros Hstep Hinv u' i'. destruct (Hinv u' i') as [Hpl Hpe].
  destruct Hstep as [ |u i Hno|u i Hno|f Hin]; simpl.
  - split; assumption.
  - rewrite !filter_snoc_length, by_user_people_planet_row. split; [|lia].
    destruct (by_user_planet u' i' _) eqn:E; [|lia].
    apply by_user_planet_row in E. destruct E; subst.
    rewrite (no_planet_favorite_filter Hno). simpl. lia.
  - rewrite !filter_snoc_length, by_user_planet_people_row. split; [lia|].
    destruct (by_user_people u' i' _) eqn:E; [|lia].
    apply by_user_people_row in E. destruct E; subst.
    rewrite (no_person_favorite_filter Hno). simpl. lia.
  - split; (eapply Nat.le_trans; [apply filter_filter_length|assumption]).
Qed.

Lemma next_id_fresh (ids : list nat) : ~ In (next_id ids) ids.
Proof.
  intros Hin. unfold next_id in Hin.
  assert (H : Forall (fun k => k <= list_max ids) ids) by now apply list_max_le.
  rewrite Forall_forall in H. apply H in Hin. lia.
Qed.

Lemma NoDup_map_filter {A B : Type} (f : A -> B) (c : A -> bool) (l : list A) :
  NoDup (map f l) -> NoDup (map f (filter c l)).
Proof.
  induction l as [|a l IH]; simpl; intros H; [constructor|].
  inversion H as [|x xs Hnotin Hnd]; subst.
  destruct (c a); simpl; [|now apply IH].
  constructor; [|now apply IH].
  intros Hin. apply Hnotin. apply in_map_iff in Hin.
  destruct Hin as [y [Hy Hin]]. apply filter_In in Hin.
  apply in_map_iff. exists y. tauto.
Qed.

Lemma NoDup_snoc {A : Type} (l : list A) (x : A) :
  NoDup l -> ~ In x l -> NoDup (l ++ [x]).
Proof.
  intros Hnd Hx. apply NoDup_app.
  - assumption.
  - constructor; [intros []|constructor].
  - intros a Ha [Hax|[]]. subst. contradiction.
Qed.

Lemma favorites_step_ids st favs :
  favorites_step st favs -> favorite_ids_unique st ->
  favorite_ids_unique (with_favorites st favs).
Proof.
  unfold favorite_ids_unique. intros Hstep Hinv.
  destruct Hstep as [ |u i Hno|u i Hno|f Hin]; simpl.
  - assumption.
  - rewrite map_app. simpl. apply NoDup_snoc; [assumption|apply next_id_fresh].
  - rewrite map_app. simpl. apply NoDup_snoc; [assumption|apply next_id_fresh].
  - now apply NoDup_map_filter.
Qed.

Lemma favorites_step_one_target st favs f :
  favorites_step st favs -> In f favs -> In f (favorites st) \/ one_target f.
Proof.
  intros Hstep Hin. destruct Hstep as [ |u i Hno|u i Hno|g Hg].
  - now left.
  - apply in_app_or in Hin. destruct Hin as [Hin|[Heq|[]]]; [now left|].
    right. subst f. exact I.
  - apply in_app_or in Hin. destruct Hin as [Hin|[Heq|[]]]; [now left|].
    right. subst f. exact I.
  - apply filter_In in Hin. tauto.
Qed.

(** The invariants of the favorite table hold in every state of the
    service. *)
Lemma reachable_invariants st :
  reachable st ->
  favorites_unique st /\ favorite_ids_unique st /\ Forall one_target (favorites st).
Proof.
  induction 1 as [st Hnil|st req Hreach [Huniq [Hids Hone]]].
  - unfold favorites_unique, favorite_ids_unique. rewrite Hnil. simpl.
    split; [|split]; [intros; simpl; lia|constructor|constructor].
  - pose proof (handle_favorites req st) as Hstep. split; [|split].
    + exact (favorites_step_unique Hstep Huniq).
    + exact (favorites_step_ids Hstep Hids).
    + apply Forall_forall. intros f Hin.
      destruct (favorites_step_one_target f Hstep Hin) as [Hold|Hnew]; [|assumption].
      rewrite Forall_forall in Hone. now apply Hone.
Qed.

(** C2.  Every handler keeps the favorite table with at most one row per
    (user, planet) and at most one per (user, person), and so every state
    reached from a store without favorites by handling requests one after
    the other has this property. *)
Theorem favorites_unique_invariant :
  (forall req st, favorites_unique st -> favorites_unique (snd (handle req st))) /\
  (forall st, reachable st -> favorites_unique st).
Proof.
  split.
  - intros req st Hinv. exact (favorites_step_unique (handle_favorites req st) Hinv).
  - intros st Hreach. now apply reachable_invariants.
Qed.

(** C9.  The row that add_favorite_planet inserts has planet_id set and
    people_id null, the row that add_favorite_person inserts has people_id
    set and planet_id null, every row that is in the table after a request
    was there before it or is such a new row, and so in every reachable
    state each Favorite has exactly one of people_id and planet_id set. *)
Theorem favorites_one_target :
  (forall u i st f,
      In f (favorites (snd (run (add_favorite_planet u i) st))) ->
      In f (favorites st) \/
      (Favorite.user_id f = u /\ Favorite.people_id f = None /\
       Favorite.planet_id f = Some i)) /\
  (forall u i st f,
      In f (favorites (snd (run (add_favorite_person u i) st))) ->
      In f (favorites st) \/
      (Favorite.user_id f = u /\ Favorite.people_id f = Some i /\
       Favorite.planet_id f = None)) /\
  (forall req st f,
      In f (favorites (snd (handle req st))) -> In f (favorites st) \/ one_target f) /\
  (forall st, reachable st -> Forall one_target (favorites st)).
Proof.
  repeat split.
  - intros u i st f. rewrite run_add_favorite_planet.
    destruct (Planet_query_get i st); [|now left].
    destruct (Favorite_first (by_user_planet u i) st); [now left|].
    simpl. intros Hin. apply in_app_or in Hin.
    destruct Hin as [Hin|[Heq|[]]]; [now left|]. right. subst f. simpl. tauto.
  - intros u i st f. rewrite run_add_favorite_person.
    destruct (People_query_get i st); [|now left].
    destruct (Favorite_first (by_user_people u i) st); [now left|].
    simpl. intros Hin. apply in_app_or in Hin.
    destruct Hin as [Hin|[Heq|[]]]; [now left|]. right. subst f. simpl. tauto.
  - intros req st f. apply favorites_step_one_target. apply handle_favorites.
  - intros st Hreach. now apply reachable_invariants.
Qed.

(** ** Adding the same favorite twice *)

Lemma add_favorite_planet_twice u i st :
  planet_exists i st ->
  rejected_unchanged u (snd (run (add_favorite_planet u i) st))
    (run (add_favorite_planet u i) (snd (run (add_favorite_planet u i) st))).
Proof.
  intros Hex.
  set (st1 := snd (run (add_favorite_planet u i) st)).
  assert (H1 : planet_exists i st1 /\ has_favorite_planet u i st1).
  { subst st1. rewrite run_add_favorite_planet.
    destruct (Planet_query_get i st) eqn:Hp;
      [|apply Planet_query_get_none in Hp; contradiction].
    destruct (Favorite_first (by_user_planet u i) st) as [f|] eqn:Hf; simpl.
    - split; [assumption|]. apply find_some in Hf. destruct Hf as [Hin Hc].
      exists f. split; [assumption|]. now apply by_user_planet_spec.
    - split; [exact Hex|]. eexists. split.
      + apply in_or_app. right. left. reflexivity.
      + split; reflexivity. }
  destruct H1 as [Hex1 Hfav1].
  destruct (add_favorite_planet_contract u i st1) as [_ [H400 _]].
  destruct (H400 Hex1 Hfav1) as [Hs Hst].
  unfold rejected_unchanged. rewrite Hst. auto.
Qed.

Lemma add_favorite_person_twice u i st :
  person_exists i st ->
  rejected_unchanged u (snd (run (add_favorite_person u i) st))
    (run (add_favorite_person u i) (snd (run (add_favorite_person u i) st))).
Proof.
  intros Hex.
  set (st1 := snd (run (add_favorite_person u i) st)).
  assert (H1 : person_exists i st1 /\ has_favorite_person u i st1).
  { subst st1. rewrite run_add_favorite_person.
    destruct (People_query_get i st) eqn:Hp;
      [|apply People_query_get_none in Hp; contradiction].
    destruct (Favorite_first (by_user_people u i) st) as [f|] eqn:Hf; simpl.
    - split; [assumption|]. apply find_some in Hf. destruct Hf as [Hin Hc].
      exists f. split; [assumption|]. now apply by_user_people_spec.
    - split; [exact Hex|]. eexists. split.
      + apply in_or_app. right. left. reflexivity.
      + split; reflexivity. }
  destruct H1 as [Hex1 Hfav1].
  destruct (add_favorite_person_contract u i st1) as [_ [H400 _]].
  destruct (H400 Hex1 Hfav1) as [Hs Hst].
  unfold rejected_unchanged. rewrite Hst. auto.
Qed.

(** C3.  For an existing planet (person), the second of two calls of the
    add-favorite endpoint by the same user for the same target returns 400
    and leaves the store, hence the list of the user's favorites and its
    length, as the first call left it. *)
Theorem add_favorite_twice u i st :
  (planet_exists i st ->
   rejected_unchanged u (snd (run (add_favorite_planet u i) st))
     (run (add_favorite_planet u i) (snd (run (add_favorite_planet u i) st)))) /\
  (person_exists i st ->
   rejected_unchanged u (snd (run (add_favorite_person u i) st))
     (run (add_favorite_person u i) (snd (run (add_favorite_person u i) st)))).
Proof.
  split.
  - apply add_favorite_planet_twice.
  - apply add_favorite_person_twice.
Qed.

(** ** Removing a favorite *)

Lemma at_most_one_eq {A : Type} (l : list A) (x y : A) :
  List.length l <= 1 -> In x l -> In y l -> x = y.
Proof.
  destruct l as [|a [|b l]]; simpl; intros Hlen Hx Hy.
  - contradiction.
  - destruct Hx as [Hx|[]], Hy as [Hy|[]]. congruence.
  - lia.
Qed.

Lemma NoDup_map_eq {A B : Type} (f : A -> B) (l : list A) (x y : A) :
  NoDup (map f l) -> In x l -> In y l -> f x = f y -> x = y.
Proof.
  induction l as [|a l IH]; simpl; intros Hnd Hx Hy Hf; [contradiction|].
  inversion Hnd as [|b bs Hnotin Hnd']; subst.
  destruct Hx as [Hx|Hx], Hy as [Hy|Hy].
  - congruence.
  - subst a. exfalso. apply Hnotin. rewrite Hf. now apply in_map.
  - subst a. exfalso. apply Hnotin. rewrite <- Hf. now apply in_map.
  - now apply IH.
Qed.

Lemma delete_favorite_contract (c : Favorite.t -> bool)
    (target : Favorite.t -> Prop) (e : json) u st :
  (forall f, c f = true <-> target f) ->
  remove_favorite_contract (at_most_one_row c st) target u st
    match Favorite_first c st with
    | None => ((e, 404), st)
    | Some fav => (list_response u (flush st (DeleteFavorite fav)),
                   flush st (DeleteFavorite fav))
    end.
Proof.
  intros Hc. unfold remove_favorite_contract.
  destruct (Favorite_first c st) as [f|] eqn:Hf; simpl.
  - apply find_some in Hf. destruct Hf as [Hin Hcf]. split.
    { intros Hno. exfalso. apply Hno. exists f. split; [assumption|]. now apply Hc. }
    intros _. exists f.
    split; [assumption|]. split; [now apply Hc|]. split; [reflexivity|].
    split.
    { intros Hf. apply filter_In in Hf. destruct Hf as [_ Hf].
      rewrite Nat.eqb_refl in Hf. discriminate. }
    split.
    { intros g Hg. apply filter_In in Hg. tauto. }
    split.
    { intros g Hg Hid. apply filter_In. split; [assumption|].
      apply negb_true_iff. now apply Nat.eqb_neq. }
    split; [reflexivity|].
    intros Hone g Hg Htarget. unfold favorites_of in Hg; simpl in Hg.
    apply filter_In in Hg. destruct Hg as [Hg _].
    apply filter_In in Hg. destruct Hg as [Hg Hid].
    assert (g = f).
    { apply (at_most_one_eq (filter c (favorites st))).
      - exact Hone.
      - apply filter_In. split; [assumption|]. now apply Hc.
      - apply filter_In. split; assumption. }
    subst g. rewrite Nat.eqb_refl in Hid. discriminate.
  - split; [auto|]. intros [f [Hin Ht]].
    apply Hc in Ht. rewrite (find_none _ _ Hf f Hin) in Ht. discriminate.
Qed.


(** ** Signup *)

Lemma run_signup data st :
  run (signup data) st =
  match dict_get "email" data, dict_get "password" data with
  | Some e, Some p =>
      if String.eqb e EmptyString || String.eqb p EmptyString then
        ((error "Missing email or password", 400), st)
      else
        match User_first (by_email (Some e)) st with
        | Some _ => ((error "Email already exists", 400), st)
        | None => ((msg "User created", 201), flush st (NewUser e p true))
        end
  | _, _ => ((error "Missing email or password", 400), st)
  end.
Proof.
  unfold run, signup, bind, query, ret.
  destruct (dict_get "email" data) as [e|]; simpl; [|reflexivity].
  destruct (dict_get "password" data) as [p|]; simpl;
    [|rewrite orb_true_r; reflexivity].
  destruct (String.eqb e EmptyString); simpl; [reflexivity|].
  destruct (String.eqb p EmptyString); simpl; [reflexivity|].
  destruct (User_first (by_email (Some e)) st); reflexivity.
Qed.

Lemma User_first_by_email_none e st :
  User_first (by_email (Some e)) st = None <-> ~ email_taken e st.
Proof.
  unfold User_first, email_taken, by_email, text_eq. rewrite find_none_iff. split.
  - intros H [u [Hin He]]. apply H in Hin. apply String.eqb_neq in Hin. auto.
  - intros H u Hin. apply String.eqb_neq. intros He. apply H. eauto.
Qed.

Lemma signup_keeps_emails_unique e p a st :
  ~ email_taken e st -> emails_unique st ->
  emails_unique (flush st (NewUser e p a)).
Proof.
  unfold emails_unique. intros Hfree Hnd. simpl. rewrite map_app. simpl.
  apply NoDup_snoc; [assumption|].
  intros Hin. apply in_map_iff in Hin. destruct Hin as [u [He Hin]].
  apply Hfree. exists u. tauto.
Qed.

(** C5, as amended.  /signup returns 400 and inserts nothing when email or
    password is absent from the body or is the empty string, and when a user
    row has the given email; otherwise it appends exactly one user row with
    the given email and password and the active flag set, and returns 201.
    It never makes two rows share an email. *)
Theorem signup_endpoint data st :
  signup_contract absent_or_empty data st /\
  (emails_unique st -> emails_unique (snd (run (signup data) st))).
Proof.
  unfold signup_contract, absent_or_empty. rewrite run_signup.
  destruct (dict_get "email" data) as [e|] eqn:He;
    [|simpl; repeat split; auto; intros; try discriminate; tauto].
  destruct (dict_get "password" data) as [p|] eqn:Hp;
    [|simpl; repeat split; auto; intros; try discriminate; tauto].
  destruct (String.eqb e EmptyString) eqn:Ee; simpl.
  { apply String.eqb_eq in Ee. subst e.
    repeat split; auto. all: intros; exfalso; tauto. }
  destruct (String.eqb p EmptyString) eqn:Ep; simpl.
  { apply String.eqb_eq in Ep. subst p.
    repeat split; auto. all: intros; exfalso; tauto. }
  apply String.eqb_neq in Ee, Ep.
  destruct (User_first (by_email (Some e)) st) as [u|] eqn:Hu; simpl.
  - assert (Htaken : email_taken e st).
    { apply find_some in Hu. destruct Hu as [Hin Hc].
      exists u. split; [assumption|]. now apply String.eqb_eq in Hc. }
    split; [split; [|split]|].
    + auto.
    + auto.
    + intros e' p' He' Hp' _ _ Hfree. congruence.
    + auto.
  - apply User_first_by_email_none in Hu.
    split; [split; [|split]|].
    + intros [[H|H]|[H|H]]; congruence.
    + intros e' He' Htaken. congruence.
    + intros e' p' He' Hp' _ _ _. inversion He'; inversion Hp'; subst.
      split; [reflexivity|]. eexists. reflexivity.
    + now apply signup_keeps_emails_unique.
Qed.

(** ** Login *)

Lemma text_eq_spec column value : text_eq column value = true <-> Some column = value.
Proof.
  unfold text_eq. destruct value as [s|].
  - rewrite String.eqb_eq. split; congruence.
  - split; discriminate.
Qed.

Lemma by_email_password_spec email password u :
  by_email_password email password u = true <-> credentials_of email password u.
Proof.
  unfold by_email_password, credentials_of.
  now rewrite andb_true_iff, !text_eq_spec.
Qed.

Lemma run_login data st :
  run (login data) st =
  match User_first (by_email_password (dict_get "email" data)
                                      (dict_get "password" data)) st with
  | None => ((error "Invalid credentials", 401), st)
  | Some user =>
      ((JObj [("token", JStr (create_access_token (User.id user)))], 200), st)
  end.
Proof.
  unfold run, login, bind, query, ret; simpl.
  destruct (User_first _ st); reflexivity.
Qed.

(** C6.  /login returns 401 exactly when no user row has the email and the
    password of the request; when one has, it returns 200 with the token
    that create_access_token makes for the id of such a row, which under
    the uniqueness of emails is the id of every row with these credentials;
    the store is the same after the request in both cases. *)
Theorem login_endpoint data st :
  let email := dict_get "email" data in
  let password := dict_get "password" data in
  let r := fst (run (login data) st) in
  snd (run (login data) st) = st /\
  (status r = 401 <->
   ~ exists u, In u (users st) /\ credentials_of email password u) /\
  ((exists u, In u (users st) /\ credentials_of email password u) ->
   exists u, In u (users st) /\ credentials_of email password u /\
     r = (JObj [("token", JStr (create_access_token (User.id u)))], 200)) /\
  (emails_unique st ->
   forall u, In u (users st) -> credentials_of email password u ->
     r = (JObj [("token", JStr (create_access_token (User.id u)))], 200)).
Proof.
  cbv zeta. rewrite run_login.
  destruct (User_first _ st) as [user|] eqn:Hu; simpl.
  - apply find_some in Hu. destruct Hu as [Hin Hc].
    apply by_email_password_spec in Hc.
    split; [reflexivity|]. split; [|split].
    + unfold status; simpl. split; [discriminate|].
      intros Hno. exfalso. apply Hno. eauto.
    + intros _. exists user. auto.
    + intros Hnd u Hinu Hcu.
      assert (u = user).
      { apply (NoDup_map_eq User.email (users st)); try assumption.
        destruct Hc as [Hc _], Hcu as [Hcu _]. congruence. }
      now subst u.
  - split; [reflexivity|].
    assert (Hno : ~ exists u, In u (users st) /\
                    credentials_of (dict_get "email" data)
                                   (dict_get "password" data) u).
    { intros [u [Hin Hc]]. apply by_email_password_spec in Hc.
      unfold User_first in Hu. rewrite (find_none _ _ Hu u Hin) in Hc. discriminate. }
    split; [|split].
    + split; [intros _; exact Hno|reflexivity].
    + intros H. contradiction.
    + intros _ u Hin Hc. exfalso. apply Hno. eauto.
Qed.

(** ** Get by id *)

(** C8.  GET /api/planets/{i} returns 200 with the serialization of a planet
    row of id [i], whose id field is [i], when the store has such a row, and
    404 when it has none; the store is the same after the request.  The same
    holds for GET /api/people/{i}. *)
Theorem get_by_id_endpoints i st :
  (snd (run (get_planet i) st) = st /\
   (planet_exists i st ->
    status (fst (run (get_planet i) st)) = 200 /\
    json_field "id" (body (fst (run (get_planet i) st))) = Some (JNum i) /\
    exists p, In p (planets st) /\ Planet.id p = i /\
              body (fst (run (get_planet i) st)) = Planet.serialize p) /\
   (~ planet_exists i st -> status (fst (run (get_planet i) st)) = 404)) /\
  (snd (run (get_person i) st) = st /\
   (person_exists i st ->
    status (fst (run (get_person i) st)) = 200 /\
    json_field "id" (body (fst (run (get_person i) st))) = Some (JNum i) /\
    exists p, In p (people st) /\ People.id p = i /\
              body (fst (run (get_person i) st)) = People.serialize p) /\
   (~ person_exists i st -> status (fst (run (get_person i) st)) = 404)).
Proof.
  split.
  - unfold run, get_planet, bind, query, ret; simpl.
    destruct (Planet_query_get i st) as [p|] eqn:Hp; simpl.
    + apply find_some in Hp. destruct Hp as [Hin Hid]. apply Nat.eqb_eq in Hid.
      split; [reflexivity|]. split.
      * intros _. split; [reflexivity|]. split; [now rewrite Hid|]. eauto.
      * intros Hno. exfalso. apply Hno. exists p. auto.
    + apply Planet_query_get_none in Hp.
      split; [reflexivity|]. split; [intros; contradiction|reflexivity].
  - unfold run, get_person, bind, query, ret; simpl.
    destruct (People_query_get i st) as [p|] eqn:Hp; simpl.
    + apply find_some in Hp. destruct Hp as [Hin Hid]. apply Nat.eqb_eq in Hid.
      split; [reflexivity|]. split.
      * intros _. split; [reflexivity|]. split; [now rewrite Hid|]. eauto.
      * intros Hno. exfalso. apply Hno. exists p. auto.
    + apply People_query_get_none in Hp.
      split; [reflexivity|]. split; [intros; contradiction|reflexivity].
Qed.

(** ** Passwords stay in the store *)






(** ** Every request, by its outcome *)

Lemma find_some_exists {A : Type} (c : A -> bool) (l : list A) (x : A) :
  find c l = Some x -> In x l /\ c x = true.
Proof. apply find_some. Qed.

Lemma handle_outcome req st : outcome st req (handle req st).
Proof.
  unfold handle.
  destruct req as [ |data|data| |i| |i| |u|u i|u i|u i|u i]; simpl route.
  - apply outcome_same. simpl. tauto.
  - rewrite run_signup.
    destruct (dict_get "email" data) as [e|] eqn:He;
      [|apply outcome_same; simpl; tauto].
    destruct (dict_get "password" data) as [p|] eqn:Hp;
      [|apply outcome_same; simpl; tauto].
    destruct (String.eqb e EmptyString) eqn:Ee; simpl;
      [apply outcome_same; simpl; tauto|].
    destruct (String.eqb p EmptyString) eqn:Ep; simpl;
      [apply outcome_same; simpl; tauto|].
    destruct (User_first (by_email (Some e)) st) eqn:Hu;
      [apply outcome_same; simpl; tauto|].
    apply String.eqb_neq in Ee, Ep. apply User_first_by_email_none in Hu.
    now apply outcome_signup.
  - rewrite run_login.
    destruct (User_first _ st); apply outcome_same; simpl; tauto.
  - apply outcome_same. simpl. tauto.
  - unfold run, get_person, bind, query, ret; simpl.
    destruct (People_query_get i st); apply outcome_same; simpl; tauto.
  - apply outcome_same. simpl. tauto.
  - unfold run, get_planet, bind, query, ret; simpl.
    destruct (Planet_query_get i st); apply outcome_same; simpl; tauto.
  - apply outcome_same. simpl. tauto.
  - apply outcome_same. simpl. tauto.
  - rewrite run_add_favorite_planet.
    destruct (Planet_query_get i st) as [p|] eqn:Hp;
      [|apply outcome_same; simpl; tauto].
    destruct (Favorite_first (by_user_planet u i) st) eqn:Hf;
      [apply outcome_same; simpl; tauto|].
    apply first_planet_none in Hf. apply outcome_add_planet; [|assumption].
    apply find_some_exists in Hp. destruct Hp as [Hin Hid].
    exists p. split; [assumption|]. now apply Nat.eqb_eq.
  - rewrite run_add_favorite_person.
    destruct (People_query_get i st) as [p|] eqn:Hp;
      [|apply outcome_same; simpl; tauto].
    destruct (Favorite_first (by_user_people u i) st) eqn:Hf;
      [apply outcome_same; simpl; tauto|].
    apply first_people_none in Hf. apply outcome_add_person; [|assumption].
    apply find_some_exists in Hp. destruct Hp as [Hin Hid].
    exists p. split; [assumption|]. now apply Nat.eqb_eq.
  - rewrite run_remove_favorite_planet.
    destruct (Favorite_first (by_user_planet u i) st) eqn:Hf;
      [|apply outcome_same; simpl; tauto].
    now apply outcome_remove_planet.
  - rewrite run_remove_favorite_person.
    destruct (Favorite_first (by_user_people u i) st) eqn:Hf;
      [|apply outcome_same; simpl; tauto].
    now apply outcome_remove_person.
Qed.

(** X1.  A request that a handler answers with status 400, 401 or 404
    leaves the store as it was, and so does every GET request and every
    login: each error return comes before the first change of the
    session. *)
Theorem errors_and_reads_keep_store req st :
  (In (status (fst (handle req st))) [400; 401; 404] -> snd (handle req st) = st) /\
  (is_get req = true \/ is_login req = true -> snd (handle req st) = st).
Proof.
  destruct (handle_outcome req st) as [req r Hr| | | | | ]; simpl.
  - split; auto.
  - split; [|intros [Hq|Hq]; discriminate Hq].
    unfold status; simpl. intros [Hs|[Hs|[Hs|[]]]]; discriminate Hs.
  - split; [|intros [Hq|Hq]; discriminate Hq].
    unfold status; simpl. intros [Hs|[Hs|[Hs|[]]]]; discriminate Hs.
  - split; [|intros [Hq|Hq]; discriminate Hq].
    unfold status; simpl. intros [Hs|[Hs|[Hs|[]]]]; discriminate Hs.
  - split; [|intros [Hq|Hq]; discriminate Hq].
    unfold status; simpl. intros [Hs|[Hs|[Hs|[]]]]; discriminate Hs.
  - split; [|intros [Hq|Hq]; discriminate Hq].
    unfold status; simpl. intros [Hs|[Hs|[Hs|[]]]]; discriminate Hs.
Qed.

(** X2.  No request changes the people or the planets table, and none
    changes or deletes a user row: the user table after a request is the
    table before it, followed by at most one new row. *)
Theorem catalogue_fixed_users_appended req st :
  people (snd (handle req st)) = people st /\
  planets (snd (handle req st)) = planets st /\
  exists new,
    users (snd (handle req st)) = (users st ++ new)%list /\ List.length new <= 1.
Proof.
  destruct (handle_outcome req st); simpl;
    (split; [reflexivity|]; split; [reflexivity|]);
    try (exists []; rewrite app_nil_r; split; [reflexivity|simpl; lia]).
  eexists. split; [reflexivity|simpl; lia].
Qed.

(** X3.  Every request keeps the primary keys of the user and of the
    favorite table free of duplicates, and keeps the emails of the users
    free of duplicates. *)
Theorem keys_stay_unique req st :
  (user_ids_unique st -> user_ids_unique (snd (handle req st))) /\
  (emails_unique st -> emails_unique (snd (handle req st))) /\
  (favorite_ids_unique st -> favorite_ids_unique (snd (handle req st))).
Proof.
  split; [|split].
  - unfold user_ids_unique.
    destruct (handle_outcome req st); simpl; try tauto.
    intros Hnd. rewrite map_app. simpl.
    apply NoDup_snoc; [assumption|apply next_id_fresh].
  - destruct (handle_outcome req st); simpl; try tauto.
    now apply signup_keeps_emails_unique.
  - intros Hnd. exact (favorites_step_ids (handle_favorites req st) Hnd).
Qed.

Lemma handle_targets_exist req st :
  targets_exist st -> targets_exist (snd (handle req st)).
Proof.
  intros Hinv.
  destruct (handle_outcome req st) as [req r Hr|data e p He Hp Hne Hnp Hfree
    |u i Hex Hno|u i Hex Hno|u i g Hg|u i g Hg]; simpl.
  - assumption.
  - exact Hinv.
  - intros f Hin. simpl in Hin. apply in_app_or in Hin.
    destruct Hin as [Hin|[Heq|[]]]; [exact (Hinv f Hin)|].
    subst f. simpl. split; intros j Hj; [|discriminate Hj].
    injection Hj as Hj. now subst j.
  - intros f Hin. simpl in Hin. apply in_app_or in Hin.
    destruct Hin as [Hin|[Heq|[]]]; [exact (Hinv f Hin)|].
    subst f. simpl. split; intros j Hj; [discriminate Hj|].
    injection Hj as Hj. now subst j.
  - intros f Hin. simpl in Hin. apply filter_In in Hin.
    exact (Hinv f (proj1 Hin)).
  - intros f Hin. simpl in Hin. apply filter_In in Hin.
    exact (Hinv f (proj1 Hin)).
Qed.

Lemma reachable_targets_exist st : reachable st -> targets_exist st.
Proof.
  induction 1 as [st Hnil|st req Hreach IH].
  - intros f Hin. rewrite Hnil in Hin. destruct Hin.
  - now apply handle_targets_exist.
Qed.

(** X4.  In every reachable state each favorite links to a planet or a
    person that is in the store, although the foreign keys are not what
    ensures it: every request keeps this property. *)
Theorem favorites_link_to_rows :
  (forall req st, targets_exist st -> targets_exist (snd (handle req st))) /\
  (forall st, reachable st -> targets_exist st).
Proof.
  split.
  - apply handle_targets_exist.
  - apply reachable_targets_exist.
Qed.

(** X15.  Every request keeps the user rows active and with an email and a
    password that are not empty: signup, the only handler that inserts a
    user, sets the active flag and refuses empty fields. *)
Theorem users_stay_valid req st :
  Forall user_valid (users st) -> Forall user_valid (users (snd (handle req st))).
Proof.
  intros Hinv.
  destruct (handle_outcome req st) as [req r Hr|data e p He Hp Hne Hnp Hfree
    | | | | ]; simpl; try assumption.
  apply Forall_app. split; [assumption|].
  constructor; [|constructor]. unfold user_valid; simpl. auto.
Qed.

(** ** Round trips *)

Lemma find_app_none {A : Type} (c : A -> bool) (l l' : list A) :
  find c l = None -> find c (l ++ l') = find c l'.
Proof.
  induction l as [|a l IH]; simpl; [reflexivity|].
  destruct (c a); [discriminate|exact IH].
Qed.

Lemma find_app_some {A : Type} (c : A -> bool) (l l' : list A) (x : A) :
  find c l = Some x -> find c (l ++ l') = Some x.
Proof.
  induction l as [|a l IH]; simpl; [discriminate|].
  destruct (c a); [tauto|exact IH].
Qed.

Lemma filter_all {A : Type} (c : A -> bool) (l : list A) :
  (forall x, In x l -> c x = true) -> filter c l = l.
Proof.
  induction l as [|a l IH]; intros H; simpl; [reflexivity|].
  rewrite (H a (or_introl eq_refl)). f_equal. apply IH.
  intros x Hx. apply H. now right.
Qed.

(** Deleting the row that was just inserted gives the table back. *)
Lemma delete_inserted st u pe pl :
  flush (inserted st u pe pl)
    (DeleteFavorite (Favorite.Build (next_id (map Favorite.id (favorites st))) u pe pl))
  = st.
Proof.
  destruct st as [us pes pls favs]. unfold inserted, flush; simpl. f_equal.
  rewrite filter_app. simpl. rewrite Nat.eqb_refl. simpl.
  rewrite app_nil_r. apply filter_all. intros f Hin.
  apply negb_true_iff. apply Nat.eqb_neq. intros Hid.
  apply (next_id_fresh (map Favorite.id favs)). rewrite <- Hid. now apply in_map.
Qed.

Lemma planet_exists_get i st :
  planet_exists i st -> exists p, Planet_query_get i st = Some p.
Proof.
  intros Hex. destruct (Planet_query_get i st) as [p|] eqn:Hp; [eauto|].
  apply Planet_query_get_none in Hp. contradiction.
Qed.

Lemma person_exists_get i st :
  person_exists i st -> exists p, People_query_get i st = Some p.
Proof.
  intros Hex. destruct (People_query_get i st) as [p|] eqn:Hp; [eauto|].
  apply People_query_get_none in Hp. contradiction.
Qed.

Lemma run_add_favorite_planet_new u i st :
  planet_exists i st -> ~ has_favorite_planet u i st ->
  run (add_favorite_planet u i) st =
  (list_response u (inserted st u None (Some i)), inserted st u None (Some i)).
Proof.
  intros Hex Hno. rewrite run_add_favorite_planet.
  destruct (planet_exists_get Hex) as [p Hp]. rewrite Hp.
  apply first_planet_none in Hno. now rewrite Hno.
Qed.

Lemma run_add_favorite_person_new u i st :
  person_exists i st -> ~ has_favorite_person u i st ->
  run (add_favorite_person u i) st =
  (list_response u (inserted st u (Some i) None), inserted st u (Some i) None).
Proof.
  intros Hex Hno. rewrite run_add_favorite_person.
  destruct (person_exists_get Hex) as [p Hp]. rewrite Hp.
  apply first_people_none in Hno. now rewrite Hno.
Qed.

(** X5.  Adding a favorite that the user did not have and removing it again
    gives back the store from before the two requests (the second request
    answers 200 with the list the user had before): the row removed is the
    row just inserted.  This holds for planets and for people. *)
Theorem add_then_remove_restores u i st :
  (planet_exists i st -> ~ has_favorite_planet u i st ->
   run (remove_favorite_planet u i) (snd (run (add_favorite_planet u i) st)) =
   (list_response u st, st)) /\
  (person_exists i st -> ~ has_favorite_person u i st ->
   run (remove_favorite_person u i) (snd (run (add_favorite_person u i) st)) =
   (list_response u st, st)).
Proof.
  split; intros Hex Hno.
  - rewrite (run_add_favorite_planet_new Hex Hno). simpl snd.
    rewrite run_remove_favorite_planet.
    apply first_planet_none in Hno.
    unfold Favorite_first in *. simpl favorites.
    rewrite (find_app_none _ _ _ Hno). simpl find.
    unfold by_user_planet at 1; simpl. rewrite !Nat.eqb_refl. simpl.
    pose proof (delete_inserted st u None (Some i)) as Hd.
    unfold inserted in Hd. simpl in Hd. now rewrite Hd.
  - rewrite (run_add_favorite_person_new Hex Hno). simpl snd.
    rewrite run_remove_favorite_person.
    apply first_people_none in Hno.
    unfold Favorite_first in *. simpl favorites.
    rewrite (find_app_none _ _ _ Hno). simpl find.
    unfold by_user_people at 1; simpl. rewrite !Nat.eqb_refl. simpl.
    pose proof (delete_inserted st u (Some i) None) as Hd.
    unfold inserted in Hd. simpl in Hd. now rewrite Hd.
Qed.

Lemma run_signup_created data st :
  status (fst (run (signup data) st)) = 201 ->
  exists e p,
    dict_get "email" data = Some e /\ dict_get "password" data = Some p /\
    ~ email_taken e st /\
    run (signup data) st = ((msg "User created", 201), flush st (NewUser e p true)).
Proof.
  rewrite run_signup.
  destruct (dict_get "email" data) as [e|]; [|discriminate].
  destruct (dict_get "password" data) as [p|]; [|discriminate].
  destruct (String.eqb e EmptyString || String.eqb p EmptyString); [discriminate|].
  destruct (User_first (by_email (Some e)) st) eqn:Hu; [discriminate|].
  intros _. exists e, p. apply User_first_by_email_none in Hu. auto.
Qed.

(** X6.  After a signup answered with 201, a login with the same body is
    answered with 200 and the token for the id of the row that the signup
    inserted, one more than the largest user id before it. *)
Theorem signup_then_login data st :
  status (fst (run (signup data) st)) = 201 ->
  fst (run (login data) (snd (run (signup data) st))) =
  (JObj [("token",
          JStr (create_access_token (next_id (map User.id (users st)))))], 200).
Proof.
  intros H201. destruct (run_signup_created _ _ H201) as [e [p [He [Hp [Hfree Hrun]]]]].
  rewrite Hrun. simpl snd. rewrite run_login, He, Hp.
  assert (Hnone : find (by_email_password (Some e) (Some p)) (users st) = None).
  { apply find_none_iff. intros u Hin.
    destruct (by_email_password (Some e) (Some p) u) eqn:E; [|reflexivity].
    exfalso. apply Hfree. exists u. split; [assumption|].
    apply by_email_password_spec in E. destruct E as [E _]. congruence. }
  unfold User_first. simpl users. rewrite (find_app_none _ _ _ Hnone). simpl.
  unfold by_email_password, text_eq; simpl. now rewrite !String.eqb_refl.
Qed.

(** X7.  A signup with the email of a signup that was answered with 201 is
    answered with 400 and changes nothing, whatever its password; and the
    second of two signups with the same body is answered with 400 and
    changes nothing, whatever the first one was answered with. *)
Theorem signup_twice data data' st :
  (status (fst (run (signup data) st)) = 201 ->
   dict_get "email" data' = dict_get "email" data ->
   status (fst (run (signup data') (snd (run (signup data) st)))) = 400 /\
   snd (run (signup data') (snd (run (signup data) st))) = snd (run (signup data) st)) /\
  (status (fst (run (signup data) (snd (run (signup data) st)))) = 400 /\
   snd (run (signup data) (snd (run (signup data) st))) = snd (run (signup data) st)).
Proof.
  assert (Hafter : forall d e p,
             dict_get "email" d = Some e ->
             status (fst (run (signup d) (flush st (NewUser e p true)))) = 400 /\
             snd (run (signup d) (flush st (NewUser e p true))) =
             flush st (NewUser e p true)).
  { intros d e p Hd. rewrite run_signup, Hd.
    destruct (dict_get "password" d) as [q|]; [|now split].
    destruct (String.eqb e EmptyString || String.eqb q EmptyString); [now split|].
    destruct (User_first (by_email (Some e)) (flush st (NewUser e p true))) eqn:Hu;
      [now split|].
    exfalso. apply User_first_by_email_none in Hu. apply Hu.
    eexists. split; [simpl; apply in_or_app; right; left; reflexivity|reflexivity]. }
  split.
  - intros H201 Hsame.
    destruct (run_signup_created _ _ H201) as [e [p [He [Hp [Hfree Hrun]]]]].
    rewrite Hrun. simpl snd. apply Hafter. congruence.
  - assert (Hcases : status (fst (run (signup data) st)) = 201 \/
                     (status (fst (run (signup data) st)) = 400 /\
                      snd (run (signup data) st) = st)).
    { rewrite run_signup.
      destruct (dict_get "email" data) as [e|]; [|now right].
      destruct (dict_get "password" data) as [p|]; [|now right].
      destruct (String.eqb e EmptyString || String.eqb p EmptyString); [now right|].
      destruct (User_first (by_email (Some e)) st); [now right|now left]. }
    destruct Hcases as [E|[E400 Esame]].
    + destruct (run_signup_created _ _ E) as [e [p [He [Hp [Hfree Hrun]]]]].
      rewrite Hrun. simpl snd. now apply Hafter.
    + rewrite Esame. split; assumption.
Qed.

(** ** Lists and single rows *)



Lemma json_of_nullable_inj a b : json_of_nullable a = json_of_nullable b -> a = b.
Proof. destruct a, b; simpl; congruence. Qed.

Lemma Favorite_serialize_inj f g :
  Favorite.serialize f = Favorite.serialize g -> f = g.
Proof.
  destruct f, g; unfold Favorite.serialize; simpl. intros H.
  injection H as H1 H2 H3 H4.
  apply json_of_nullable_inj in H3, H4. congruence.
Qed.

(** X9.  The serializations of People, Planet and Favorite keep every
    column: two rows with the same serialization are the same row. *)
Theorem serialize_keeps_all_columns :
  (forall p q : People.t, People.serialize p = People.serialize q -> p = q) /\
  (forall p q : Planet.t, Planet.serialize p = Planet.serialize q -> p = q) /\
  (forall f g : Favorite.t, Favorite.serialize f = Favorite.serialize g -> f = g).
Proof.
  split; [|split].
  - intros [] []; unfold People.serialize; simpl; congruence.
  - intros [] []; unfold Planet.serialize; simpl; congruence.
  - apply Favorite_serialize_inj.
Qed.

(** X10.  A login that is answered with 200 is answered with 200 after any
    other request as well, and the user row that it finds, whose id goes
    into the token, is the same: no request removes or changes a user row,
    and a new row comes after the existing ones. *)
Theorem login_stays_valid data req st :
  status (fst (run (login data) st)) = 200 ->
  status (fst (run (login data) (snd (handle req st)))) = 200 /\
  User_first (by_email_password (dict_get "email" data) (dict_get "password" data))
    (snd (handle req st)) =
  User_first (by_email_password (dict_get "email" data) (dict_get "password" data))
    st.
Proof.
  rewrite !run_login. unfold User_first.
  destruct (find _ (users st)) as [user|] eqn:Hu; [|discriminate].
  intros _.
  assert (Hafter : find (by_email_password (dict_get "email" data)
                                           (dict_get "password" data))
                     (users (snd (handle req st))) = Some user).
  { destruct (handle_outcome req st); simpl; try assumption.
    now apply find_app_some. }
  rewrite Hafter. split; reflexivity.
Qed.

(** ** The favorites of a user *)

Lemma run_add_favorite_planet_ok u i st :
  status (fst (run (add_favorite_planet u i) st)) = 200 ->
  run (add_favorite_planet u i) st =
  (list_response u (inserted st u None (Some i)), inserted st u None (Some i)).
Proof.
  rewrite run_add_favorite_planet.
  destruct (Planet_query_get i st); [|discriminate].
  destruct (Favorite_first (by_user_planet u i) st); [discriminate|reflexivity].
Qed.

Lemma run_add_favorite_person_ok u i st :
  status (fst (run (add_favorite_person u i) st)) = 200 ->
  run (add_favorite_person u i) st =
  (list_response u (inserted st u (Some i) None), inserted st u (Some i) None).
Proof.
  rewrite run_add_favorite_person.
  destruct (People_query_get i st); [|discriminate].
  destruct (Favorite_first (by_user_people u i) st); [discriminate|reflexivity].
Qed.

Lemma run_remove_favorite_planet_ok u i st :
  status (fst (run (remove_favorite_planet u i) st)) = 200 ->
  exists f,
    In f (favorites st) /\ is_favorite_planet u i f /\
    run (remove_favorite_planet u i) st =
    (list_response u (flush st (DeleteFavorite f)), flush st (DeleteFavorite f)).
Proof.
  rewrite run_remove_favorite_planet.
  destruct (Favorite_first (by_user_planet u i) st) as [f|] eqn:Hf; [|discriminate].
  intros _. apply find_some_exists in Hf. destruct Hf as [Hin Hc].
  apply by_user_planet_spec in Hc. eauto.
Qed.

Lemma run_remove_favorite_person_ok u i st :
  status (fst (run (remove_favorite_person u i) st)) = 200 ->
  exists f,
    In f (favorites st) /\ is_favorite_person u i f /\
    run (remove_favorite_person u i) st =
    (list_response u (flush st (DeleteFavorite f)), flush st (DeleteFavorite f)).
Proof.
  rewrite run_remove_favorite_person.
  destruct (Favorite_first (by_user_people u i) st) as [f|] eqn:Hf; [|discriminate].
  intros _. apply find_some_exists in Hf. destruct Hf as [Hin Hc].
  apply by_user_people_spec in Hc. eauto.
Qed.

(** X11.  GET /api/users/favorites answers 200 with the serialized rows of
    the user of the token and of nobody else, and leaves the store as it is;
    and the body of a 200 answer of an add or remove endpoint is the body
    that GET /api/users/favorites returns right after it. *)
Theorem favorites_listing u i st :
  (snd (run (get_favorites u) st) = st /\
   exists items,
     fst (run (get_favorites u) st) = (JArr items, 200) /\
     forall f, In (Favorite.serialize f) items <->
               In f (favorites st) /\ Favorite.user_id f = u) /\
  (status (fst (run (add_favorite_planet u i) st)) = 200 ->
   fst (run (add_favorite_planet u i) st) =
   fst (run (get_favorites u) (snd (run (add_favorite_planet u i) st)))) /\
  (status (fst (run (add_favorite_person u i) st)) = 200 ->
   fst (run (add_favorite_person u i) st) =
   fst (run (get_favorites u) (snd (run (add_favorite_person u i) st)))) /\
  (status (fst (run (remove_favorite_planet u i) st)) = 200 ->
   fst (run (remove_favorite_planet u i) st) =
   fst (run (get_favorites u) (snd (run (remove_favorite_planet u i) st)))) /\
  (status (fst (run (remove_favorite_person u i) st)) = 200 ->
   fst (run (remove_favorite_person u i) st) =
   fst (run (get_favorites u) (snd (run (remove_favorite_person u i) st)))).
Proof.
  split; [|split; [|split; [|split]]].
  - split; [reflexivity|].
    exists (map Favorite.serialize (favorites_of u st)). split; [reflexivity|].
    intros f. rewrite in_map_iff. unfold favorites_of. split.
    + intros [g [Hg Hin]]. apply Favorite_serialize_inj in Hg. subst g.
      apply filter_In in Hin. now rewrite Nat.eqb_eq in Hin.
    + intros [Hin Hu]. exists f. split; [reflexivity|].
      apply filter_In. now rewrite Nat.eqb_eq.
  - intros H. now rewrite (run_add_favorite_planet_ok _ _ _ H).
  - intros H. now rewrite (run_add_favorite_person_ok _ _ _ H).
  - intros H. destruct (run_remove_favorite_planet_ok _ _ _ H) as [f [_ [_ Hr]]].
    now rewrite Hr.
  - intros H. destruct (run_remove_favorite_person_ok _ _ _ H) as [f [_ [_ Hr]]].
    now rewrite Hr.
Qed.

(** With unique primary keys, the deletion of a row takes that row out of
    the table and nothing else. *)
Lemma delete_split (l : list Favorite.t) (f : Favorite.t) :
  NoDup (map Favorite.id l) -> In f l ->
  exists l1 l2,
    l = (l1 ++ f :: l2)%list /\
    filter (fun g => negb (Favorite.id g =? Favorite.id f)) l = (l1 ++ l2)%list.
Proof.
  intros Hnd Hin. destruct (in_split f l Hin) as [l1 [l2 Hl]].
  exists l1, l2. split; [exact Hl|]. subst l.
  assert (Hother : forall g, In g l1 \/ In g l2 ->
                     negb (Favorite.id g =? Favorite.id f) = true).
  { intros g Hg. apply negb_true_iff. apply Nat.eqb_neq. intros Hid.
    rewrite map_app in Hnd. simpl in Hnd. apply NoDup_remove_2 in Hnd.
    apply Hnd. rewrite <- Hid. apply in_or_app.
    destruct Hg as [Hg|Hg]; [left|right]; now apply in_map. }
  rewrite filter_app. simpl. rewrite Nat.eqb_refl. simpl.
  rewrite !filter_all; auto.
Qed.

(** X12.  A 200 answer of an add endpoint makes the list of the user one
    row longer; with unique primary keys in the favorite table, a 200
    answer of a remove endpoint makes it one row shorter. *)
Theorem favorites_count u i st :
  (status (fst (run (add_favorite_planet u i) st)) = 200 ->
   List.length (favorites_of u (snd (run (add_favorite_planet u i) st))) =
   S (List.length (favorites_of u st))) /\
  (status (fst (run (add_favorite_person u i) st)) = 200 ->
   List.length (favorites_of u (snd (run (add_favorite_person u i) st))) =
   S (List.length (favorites_of u st))) /\
  (favorite_ids_unique st ->
   status (fst (run (remove_favorite_planet u i) st)) = 200 ->
   S (List.length (favorites_of u (snd (run (remove_favorite_planet u i) st)))) =
   List.length (favorites_of u st)) /\
  (favorite_ids_unique st ->
   status (fst (run (remove_favorite_person u i) st)) = 200 ->
   S (List.length (favorites_of u (snd (run (remove_favorite_person u i) st)))) =
   List.length (favorites_of u st)).
Proof.
  assert (Hadd : forall pe pl,
             List.length (favorites_of u (inserted st u pe pl)) =
             S (List.length (favorites_of u st))).
  { intros pe pl. unfold favorites_of, inserted; simpl.
    rewrite filter_snoc_length. simpl. rewrite Nat.eqb_refl. lia. }
  assert (Hdel : forall f,
             favorite_ids_unique st -> In f (favorites st) ->
             Favorite.user_id f = u ->
             S (List.length (favorites_of u (flush st (DeleteFavorite f)))) =
             List.length (favorites_of u st)).
  { intros f Hnd Hin Hu. unfold favorites_of; simpl.
    destruct (delete_split _ f Hnd Hin) as [l1 [l2 [Hl Hfl]]].
    rewrite Hfl, Hl, !filter_app, !length_app. simpl.
    apply Nat.eqb_eq in Hu. rewrite Hu. simpl. lia. }
  split; [|split; [|split]].
  - intros H. rewrite (run_add_favorite_planet_ok _ _ _ H). apply Hadd.
  - intros H. rewrite (run_add_favorite_person_ok _ _ _ H). apply Hadd.
  - intros Hnd H.
    destruct (run_remove_favorite_planet_ok _ _ _ H) as [f [Hin [[Hu _] Hr]]].
    rewrite Hr. now apply Hdel.
  - intros Hnd H.
    destruct (run_remove_favorite_person_ok _ _ _ H) as [f [Hin [[Hu _] Hr]]].
    rewrite Hr. now apply Hdel.
Qed.


(** ** The database URI *)

Lemma prefix_append (old rest : string) : prefix old (old ++ rest) = true.
Proof.
  induction old as [|c old IH]; simpl.
  - now destruct rest.
  - destruct (Ascii.ascii_dec c c) as [_|Hne]; [exact IH|now contradiction Hne].
Qed.

Lemma prefix_split (old s : string) :
  prefix old s = true -> exists b, s = old ++ b.
Proof.
  revert s. induction old as [|c old IH]; intros s H.
  - exists s. reflexivity.
  - destruct s as [|d s]; simpl in H; [discriminate|].
    destruct (Ascii.ascii_dec c d) as [Heq|Hne]; [|discriminate].
    destruct (IH s H) as [b Hb]. exists b. simpl. congruence.
Qed.

Lemma replace_from_skip (old new s1 s2 : string) :
  replace_from old new (String.length s1) (s1 ++ s2) = replace_from old new 0 s2.
Proof.
  induction s1 as [|c s1 IH]; simpl; [reflexivity|exact IH].
Qed.

Lemma str_replace_at_head (c : Ascii.ascii) (old new rest : string) :
  str_replace (String c old) new (String c old ++ rest) =
  new ++ str_replace (String c old) new rest.
Proof.
  unfold str_replace.
  change (String c old ++ rest) with (String c (old ++ rest)).
  cbn [replace_from].
  change (String c (old ++ rest)) with (String c old ++ rest).
  rewrite prefix_append. f_equal.
  cbn [String.length]. rewrite Nat.sub_1_r. cbn [Nat.pred].
  apply replace_from_skip.
Qed.

Lemma occurs_tail (old s : string) (c : Ascii.ascii) :
  occurs old s -> occurs old (String c s).
Proof.
  intros [a [b H]]. exists (String c a), b. simpl. now rewrite H.
Qed.

Lemma str_replace_absent (old new s : string) :
  ~ occurs old s -> str_replace old new s = s.
Proof.
  unfold str_replace. induction s as [|c s IH]; intros Hno; [reflexivity|].
  cbn [replace_from].
  destruct (prefix old (String c s)) eqn:Hp.
  - exfalso. apply Hno. destruct (prefix_split _ _ Hp) as [b Hb].
    exists EmptyString, b. exact Hb.
  - f_equal. apply IH. intros Hocc. apply Hno. now apply occurs_tail.
Qed.

Lemma occurs_contains (old s : string) : occurs old s -> contains old s = true.
Proof.
  intros [a [b H]]. subst s. induction a as [|c a IH].
  - change (EmptyString ++ old ++ b) with (old ++ b).
    pose proof (prefix_append old b) as Hp.
    destruct (old ++ b) as [|d r]; cbn [contains]; [exact Hp|now rewrite Hp].
  - change (String c a ++ old ++ b) with (String c (a ++ old ++ b)).
    cbn [contains]. rewrite IH. apply orb_true_r.
Qed.

(** X14.  Without DATABASE_URL the service uses the SQLite file
    /tmp/test.db.  A URL in which postgres:// does not occur is used as it
    is, in particular one that has the scheme postgresql:// already; a URL
    that begins with postgres:// gets the scheme postgresql://, and what
    follows the scheme is rewritten in the same way, so that it is kept as
    it is when postgres:// does not occur in it. *)
Theorem database_uri_scheme :
  database_uri None = "sqlite:////tmp/test.db" /\
  (forall url, ~ occurs "postgres://" url -> database_uri (Some url) = url) /\
  (forall rest,
      database_uri (Some ("postgres://" ++ rest)) =
      "postgresql://" ++ database_uri (Some rest)) /\
  (forall rest,
      ~ occurs "postgres://" rest ->
      database_uri (Some ("postgres://" ++ rest)) = "postgresql://" ++ rest) /\
  (forall rest,
      ~ occurs "postgres://" rest ->
      database_uri (Some ("postgresql://" ++ rest)) = "postgresql://" ++ rest).
Proof.
  split; [reflexivity|]. split; [|split; [|split]].
  - intros url Hno. now apply str_replace_absent.
  - intros rest. apply str_replace_at_head.
  - intros rest Hno. unfold database_uri.
    rewrite str_replace_at_head. f_equal. now apply str_replace_absent.
  - intros rest Hno. unfold database_uri, str_replace.
    cbn. f_equal. repeat f_equal. now apply str_replace_absent.
Qed.

(** ** Removing and adding again *)

(** X16.  In a reachable state, after a remove endpoint answered 200 the
    add endpoint for the same user and target answers 200 again: the target
    is still in the store and the user has no favorite for it left. *)
Theorem remove_then_add st u i :
  reachable st ->
  (status (fst (run (remove_favorite_planet u i) st)) = 200 ->
   status (fst (run (add_favorite_planet u i)
                  (snd (run (remove_favorite_planet u i) st)))) = 200) /\
  (status (fst (run (remove_favorite_person u i) st)) = 200 ->
   status (fst (run (add_favorite_person u i)
                  (snd (run (remove_favorite_person u i) st)))) = 200).
Proof.
  intros Hreach. pose proof (reachable_targets_exist Hreach) as Htargets.
  split; intros H200.
  - destruct (run_remove_favorite_planet_ok _ _ _ H200) as [f [Hin [Hf Hr]]].
    pose proof (delete_favorite_contract (by_user_planet u i)
                  (is_favorite_planet u i)
                  (error "Favorite planet not found") u st
                  (by_user_planet_spec u i)) as Hc.
    rewrite <- run_remove_favorite_planet in Hc.
    destruct Hc as [_ Hc].
    destruct Hc as [g [_ [_ [_ [_ [_ [_ [_ Hsingle]]]]]]]]; [eauto|].
    pose proof (Hsingle (proj1 (proj1 (reachable_invariants Hreach) u i))) as Hgone.
    assert (Hex : planet_exists i (snd (run (remove_favorite_planet u i) st))).
    { rewrite Hr. simpl. exact (proj1 (Htargets f Hin) i (proj2 Hf)). }
    assert (Hno : ~ has_favorite_planet u i
                    (snd (run (remove_favorite_planet u i) st))).
    { intros [h [Hh Hth]]. apply (Hgone h); [|exact Hth].
      unfold favorites_of. apply filter_In. split; [exact Hh|].
      apply Nat.eqb_eq. exact (proj1 Hth). }
    now rewrite (run_add_favorite_planet_new Hex Hno).
  - destruct (run_remove_favorite_person_ok _ _ _ H200) as [f [Hin [Hf Hr]]].
    pose proof (delete_favorite_contract (by_user_people u i)
                  (is_favorite_person u i)
                  (error "Favorite person not found") u st
                  (by_user_people_spec u i)) as Hc.
    rewrite <- run_remove_favorite_person in Hc.
    destruct Hc as [_ Hc].
    destruct Hc as [g [_ [_ [_ [_ [_ [_ [_ Hsingle]]]]]]]]; [eauto|].
    pose proof (Hsingle (proj2 (proj1 (reachable_invariants Hreach) u i))) as Hgone.
    assert (Hex : person_exists i (snd (run (remove_favorite_person u i) st))).
    { rewrite Hr. simpl. exact (proj2 (Htargets f Hin) i (proj2 Hf)). }
    assert (Hno : ~ has_favorite_person u i
                    (snd (run (remove_favorite_person u i) st))).
    { intros [h [Hh Hth]]. apply (Hgone h); [|exact Hth].
      unfold favorites_of. apply filter_In. split; [exact Hh|].
      apply Nat.eqb_eq. exact (proj1 Hth). }
    now rewrite (run_add_favorite_person_new Hex Hno).
Qed.

End Api.

(** ** The properties on sample data *)

(** The scenario of the specification: signup, login, add a favorite planet
    twice, remove it twice. *)
Example end_to_end :
  let h := handle sample_token in
  let s1 := h (POST_signup credentials) seeded in
  let s2 := h (POST_login credentials) (snd s1) in
  let s3 := h (POST_favorite_planet 1 1) (snd s2) in
  let s4 := h (POST_favorite_planet 1 1) (snd s3) in
  let s5 := h (DELETE_favorite_planet 1 1) (snd s4) in
  let s6 := h (DELETE_favorite_planet 1 1) (snd s5) in
  status (fst s1) = 201 /\
  fst s2 = (JObj [("token", JStr "sub:1")], 200) /\
  fst s3 = (JArr [JObj [("id", JNum 1); ("user_id", JNum 1);
                        ("people_id", JNull); ("planet_id", JNum 1)]], 200) /\
  status (fst s4) = 400 /\
  fst s5 = (JArr [], 200) /\
  status (fst s6) = 404 /\
  snd s6 = with_user.
Proof. vm_compute. repeat split. Qed.

Lemma add_favorite_endpoints_witness :
  planet_exists 1 with_user /\ ~ has_favorite_planet 1 1 with_user /\
  exists k,
    snd (run (add_favorite_planet 1 1) with_user) =
    with_favorites with_user [Favorite.Build k 1 None (Some 1)].
Proof.
  assert (Hex : planet_exists 1 with_user).
  { exists tatooine. split; [now left|reflexivity]. }
  assert (Hno : ~ has_favorite_planet 1 1 with_user).
  { intros [f [[] _]]. }
  split; [exact Hex|]. split; [exact Hno|].
  destruct (add_favorite_endpoints 1 1 with_user) as [[_ [_ H]] _].
  destruct (H Hex Hno) as [k [Hst _]].
  exists k. exact Hst.
Defined.

Lemma favorites_unique_invariant_witness :
  favorites_unique with_user /\
  favorites_unique (snd (handle sample_token (POST_favorite_planet 1 1) with_user)).
Proof.
  assert (H : favorites_unique with_user).
  { intros u i. simpl. split; apply Nat.le_0_l. }
  split; [exact H|].
  exact (proj1 (favorites_unique_invariant sample_token) _ _ H).
Defined.

Lemma add_favorite_twice_witness :
  planet_exists 1 with_user /\
  rejected_unchanged 1 (snd (run (add_favorite_planet 1 1) with_user))
    (run (add_favorite_planet 1 1) (snd (run (add_favorite_planet 1 1) with_user))).
Proof.
  assert (Hex : planet_exists 1 with_user).
  { exists tatooine. split; [now left|reflexivity]. }
  split; [exact Hex|].
  exact (proj1 (add_favorite_twice 1 1 with_user) Hex).
Defined.



Lemma signup_empty_email_refutes :
  ~ signup_contract absent empty_email seeded.
Proof.
  intros [_ [_ H]].
  assert (Hfree : ~ email_taken EmptyString seeded) by (intros [u [[] _]]).
  destruct (H EmptyString "x" eq_refl eq_refl) as [Hstatus _];
    try assumption; try (intros Habs; discriminate Habs).
  vm_compute in Hstatus. discriminate Hstatus.
Defined.

Lemma signup_endpoint_witness :
  ~ absent_or_empty (Some "a@b.com") /\ ~ absent_or_empty (Some "x") /\
  ~ email_taken "a@b.com" seeded /\
  status (fst (run (signup credentials) seeded)) = 201 /\
  snd (run (signup credentials) seeded) = with_user.
Proof.
  assert (He : ~ absent_or_empty (Some "a@b.com")).
  { intros [H|H]; discriminate H. }
  assert (Hp : ~ absent_or_empty (Some "x")).
  { intros [H|H]; discriminate H. }
  assert (Hfree : ~ email_taken "a@b.com" seeded).
  { intros [u [[] _]]. }
  split; [exact He|]. split; [exact Hp|]. split; [exact Hfree|].
  destruct (signup_endpoint credentials seeded) as [[_ [_ H]] _].
  destruct (H "a@b.com" "x" eq_refl eq_refl He Hp Hfree) as [Hstatus _].
  split; [exact Hstatus|reflexivity].
Defined.

Lemma login_endpoint_witness :
  emails_unique with_user /\
  credentials_of (Some "a@b.com") (Some "x") (User.Build 1 "a@b.com" "x" true) /\
  fst (run (login sample_token credentials) with_user) =
  (JObj [("token", JStr (sample_token 1))], 200).
Proof.
  assert (Hnd : emails_unique with_user).
  { unfold emails_unique; simpl. constructor; [intros []|constructor]. }
  assert (Hc : credentials_of (Some "a@b.com") (Some "x")
                 (User.Build 1 "a@b.com" "x" true)).
  { split; reflexivity. }
  split; [exact Hnd|]. split; [exact Hc|].
  destruct (login_endpoint sample_token credentials with_user) as [_ [_ [_ H]]].
  exact (H Hnd _ (or_introl eq_refl) Hc).
Defined.

Lemma get_by_id_endpoints_witness :
  planet_exists 1 seeded /\
  status (fst (run (get_planet 1) seeded)) = 200 /\
  json_field "id" (body (fst (run (get_planet 1) seeded))) = Some (JNum 1).
Proof.
  assert (Hex : planet_exists 1 seeded).
  { exists tatooine. split; [now left|reflexivity]. }
  split; [exact Hex|].
  destruct (get_by_id_endpoints 1 seeded) as [[_ [H _]] _].
  destruct (H Hex) as [Hs [Hid _]]. split; [exact Hs|exact Hid].
Defined.

Lemma favorites_one_target_witness :
  reachable sample_token with_favorite /\
  Forall one_target (favorites with_favorite).
Proof.
  assert (Hreach : reachable sample_token with_favorite).
  { change with_favorite
      with (snd (handle sample_token (POST_favorite_planet 1 1) with_user)).
    apply reachable_step. apply reachable_init. reflexivity. }
  split; [exact Hreach|].
  destruct (favorites_one_target sample_token) as [_ [_ [_ H]]].
  exact (H _ Hreach).
Defined.


Lemma errors_and_reads_keep_store_witness :
  In (status (fst (handle sample_token (POST_favorite_planet 1 7) with_user)))
     [400; 401; 404] /\
  snd (handle sample_token (POST_favorite_planet 1 7) with_user) = with_user.
Proof.
  assert (H : In (status (fst (handle sample_token (POST_favorite_planet 1 7)
                                 with_user))) [400; 401; 404]).
  { right. right. left. reflexivity. }
  split; [exact H|].
  exact (proj1 (errors_and_reads_keep_store sample_token
                  (POST_favorite_planet 1 7) with_user) H).
Defined.

Lemma keys_stay_unique_witness :
  user_ids_unique with_user /\
  user_ids_unique (snd (handle sample_token (POST_signup other_credentials) with_user)).
Proof.
  assert (H : user_ids_unique with_user).
  { unfold user_ids_unique; simpl. constructor; [intros []|constructor]. }
  split; [exact H|].
  exact (proj1 (keys_stay_unique sample_token (POST_signup other_credentials)
                  with_user) H).
Defined.

Lemma favorites_link_to_rows_witness :
  reachable sample_token with_favorite /\ targets_exist with_favorite.
Proof.
  assert (Hreach : reachable sample_token with_favorite).
  { change with_favorite
      with (snd (handle sample_token (POST_favorite_planet 1 1) with_user)).
    apply reachable_step. apply reachable_init. reflexivity. }
  split; [exact Hreach|].
  exact (proj2 (favorites_link_to_rows sample_token) _ Hreach).
Defined.

Lemma add_then_remove_restores_witness :
  planet_exists 1 with_user /\ ~ has_favorite_planet 1 1 with_user /\
  run (remove_favorite_planet 1 1) (snd (run (add_favorite_planet 1 1) with_user)) =
  (list_response 1 with_user, with_user).
Proof.
  assert (Hex : planet_exists 1 with_user).
  { exists tatooine. split; [now left|reflexivity]. }
  assert (Hno : ~ has_favorite_planet 1 1 with_user).
  { intros [f [[] _]]. }
  split; [exact Hex|]. split; [exact Hno|].
  exact (proj1 (add_then_remove_restores 1 1 with_user) Hex Hno).
Defined.

Lemma signup_then_login_witness :
  status (fst (run (signup credentials) seeded)) = 201 /\
  fst (run (login sample_token credentials) (snd (run (signup credentials) seeded))) =
  (JObj [("token", JStr (sample_token 1))], 200).
Proof.
  split; [reflexivity|].
  exact (signup_then_login sample_token credentials seeded eq_refl).
Defined.

Lemma signup_twice_witness :
  status (fst (run (signup credentials) seeded)) = 201 /\
  status (fst (run (signup credentials) (snd (run (signup credentials) seeded)))) = 400.
Proof.
  split; [reflexivity|].
  exact (proj1 (proj1 (signup_twice credentials credentials seeded) eq_refl eq_refl)).
Defined.


Lemma serialize_keeps_all_columns_witness :
  Planet.serialize tatooine = Planet.serialize (Planet.Build 1 "Tatooine" "arid" "desert") /\
  tatooine = Planet.Build 1 "Tatooine" "arid" "desert".
Proof.
  split; [reflexivity|].
  exact (proj1 (proj2 serialize_keeps_all_columns) _ _ eq_refl).
Defined.

Lemma login_stays_valid_witness :
  status (fst (run (login sample_token credentials) with_user)) = 200 /\
  status (fst (run (login sample_token credentials)
                 (snd (handle sample_token (POST_signup other_credentials)
                         with_user)))) = 200.
Proof.
  split; [reflexivity|].
  exact (proj1 (login_stays_valid sample_token credentials
                  (POST_signup other_credentials) with_user eq_refl)).
Defined.

Lemma favorites_listing_witness :
  status (fst (run (add_favorite_planet 1 1) with_user)) = 200 /\
  fst (run (add_favorite_planet 1 1) with_user) =
  fst (run (get_favorites 1) (snd (run (add_favorite_planet 1 1) with_user))).
Proof.
  split; [reflexivity|].
  exact (proj1 (proj2 (favorites_listing 1 1 with_user)) eq_refl).
Defined.

Lemma favorites_count_witness :
  favorite_ids_unique with_favorite /\
  status (fst (run (remove_favorite_planet 1 1) with_favorite)) = 200 /\
  S (List.length (favorites_of 1 (snd (run (remove_favorite_planet 1 1) with_favorite)))) =
  List.length (favorites_of 1 with_favorite).
Proof.
  assert (H : favorite_ids_unique with_favorite).
  { unfold favorite_ids_unique; simpl. constructor; [intros []|constructor]. }
  split; [exact H|]. split; [reflexivity|].
  exact (proj1 (proj2 (proj2 (favorites_count 1 1 with_favorite))) H eq_refl).
Defined.


Lemma database_uri_scheme_witness :
  ~ occurs "postgres://" sample_location /\
  database_uri (Some ("postgres://" ++ sample_location)) =
  "postgresql://" ++ sample_location.
Proof.
  assert (H : ~ occurs "postgres://" sample_location).
  { intros Hocc. apply occurs_contains in Hocc. vm_compute in Hocc.
    discriminate Hocc. }
  split; [exact H|].
  exact (proj1 (proj2 (proj2 (proj2 database_uri_scheme))) sample_location H).
Defined.

Lemma users_stay_valid_witness :
  Forall user_valid (users with_user) /\
  Forall user_valid
    (users (snd (handle sample_token (POST_signup other_credentials) with_user))).
Proof.
  assert (H : Forall user_valid (users with_user)).
  { constructor; [|constructor].
    split; [reflexivity|]. split; intros Habs; discriminate Habs. }
  split; [exact H|].
  exact (users_stay_valid sample_token (POST_signup other_credentials) with_user H).
Defined.

Lemma remove_then_add_witness :
  reachable sample_token with_favorite /\
  status (fst (run (remove_favorite_planet 1 1) with_favorite)) = 200 /\
  status (fst (run (add_favorite_planet 1 1)
                 (snd (run (remove_favorite_planet 1 1) with_favorite)))) = 200.
Proof.
  assert (Hreach : reachable sample_token with_favorite).
  { change with_favorite
      with (snd (handle sample_token (POST_favorite_planet 1 1) with_user)).
    apply reachable_step. apply reachable_init. reflexivity. }
  split; [exact Hreach|]. split; [reflexivity|].
  exact (proj1 (remove_then_add 1 1 Hreach) eq_refl).
Defined.
